(** * dbrxr: a remote-execution client for a Databricks cluster

    A shallow embedding of [dbrxr/__init__.py] (class [DBRXCluster]) and the
    properties its specification states about it.

    The client is sequential Python code that mutates [self], talks to a REST
    service, sleeps, logs and raises.  It is embedded as a state-and-exception
    monad over a machine made of the client object, the remote service and the
    trace of everything the client did to the outside world.  The only loop
    (the status poll of [_execute]) is unbounded in the source; it is embedded
    with fuel, and running out of fuel is an outcome of its own, distinct from
    returning and from raising. *)

From Stdlib Require Import ZArith List String Ascii Bool Lia.
Import ListNotations.
Local Open Scope string_scope.
Local Open Scope Z_scope.

(** ** Python values

    The values the client handles are what [json.loads] produces, plus the
    literals of the source.  JSON [null] is Python's [None]; a JSON object is a
    [dict], kept as an association list in insertion order. *)

#[warnings="-register-all"]
Inductive value : Type :=
| VNone
| VBool (b : bool)
| VInt (z : Z)
| VStr (s : string)
| VList (l : list value)
| VDict (d : list (string * value)).

(** Python truth value testing ([if x:], [not x]). *)
Definition truthy (v : value) : bool :=
  match v with
  | VNone => false
  | VBool b => b
  | VInt z => negb (z =? 0)
  | VStr s => negb (s =? "")%string
  | VList l => match l with [] => false | _ => true end
  | VDict d => match d with [] => false | _ => true end
  end.

(** [v == "literal"]: a value that is not a [str] never equals a [str]. *)
Definition str_eq (v : value) (s : string) : bool :=
  match v with
  | VStr t => (t =? s)%string
  | _ => false
  end.

(** [v is None] *)
Definition is_None (v : value) : bool :=
  match v with
  | VNone => true
  | _ => false
  end.

(** *** Dictionaries *)

Definition dict := list (string * value).

Fixpoint dict_get (d : dict) (k : string) : option value :=
  match d with
  | [] => None
  | (k', v) :: d' => if (k' =? k)%string then Some v else dict_get d' k
  end.

(** [d[k] = v]: an existing key keeps its position, a new key goes last. *)
Fixpoint dict_set (d : dict) (k : string) (v : value) : dict :=
  match d with
  | [] => [(k, v)]
  | (k', v') :: d' =>
      if (k' =? k)%string then (k, v) :: d' else (k', v') :: dict_set d' k v
  end.

(** [d.pop(k)] on a dictionary, the popped value dropped. *)
Fixpoint dict_pop (d : dict) (k : string) : dict :=
  match d with
  | [] => []
  | (k', v') :: d' =>
      if (k' =? k)%string then d' else (k', v') :: dict_pop d' k
  end.

(** ** Exceptions and outcomes *)

Inductive exn : Type :=
| ContextNotSetException
| ValueError
| KeyError (k : string)
| TypeError
| AttributeError
| UnboundLocalError (name : string)
| JSONDecodeError
| RuntimeError
| OverflowError.
(* [RuntimeError] is what a bare [raise] outside an [except] block raises:
   "No active exception to reraise".  [OverflowError] is what [time.sleep]
   raises for a number of seconds it cannot convert. *)

Inductive outcome (A : Type) : Type :=
| Ret (a : A)
| Raise (e : exn)
| OutOfFuel.

Arguments Ret {A} a.
Arguments Raise {A} e.
Arguments OutOfFuel {A}.

(** [v[k]] for a string key [k]. *)
Definition getitem (v : value) (k : string) : outcome value :=
  match v with
  | VDict d =>
      match dict_get d k with
      | Some x => Ret x
      | None => Raise (KeyError k)
      end
  | _ => Raise TypeError
  end.

(** A local variable of a Python function: unbound until first assigned. *)
Definition load_local (name : string) (x : option value) : outcome value :=
  match x with
  | Some v => Ret v
  | None => Raise (UnboundLocalError name)
  end.

(** ** HTTP, logging and the trace *)

Inductive method : Type := GET | POST.

(** A request as [requests.get]/[requests.post] receives it.  [payload] is the
    dictionary passed as [data=json.dumps(body)] or as [params=body]. *)
Record request : Type := mkRequest {
  meth : method;
  url : string;
  headers : list (string * string);
  payload : dict
}.

(** The text of a response, as far as the client looks at it: what
    [json.loads] makes of it. *)
Inductive body_text : Type :=
| Json (v : value)
| Garbled (raw : string).

Record response : Type := mkResponse {
  status_code : Z;
  text : body_text
}.

Definition json_loads (t : body_text) : outcome value :=
  match t with
  | Json v => Ret v
  | Garbled _ => Raise JSONDecodeError
  end.

Inductive level : Type := INFO | WARNING | ERROR.

(** One constructor per logging call of the source, carrying the values its
    f-string interpolates. *)
Inductive message : Type :=
| MsgContextExists (ctx : value)
| MsgCreating (name : string) (cluster : value)
| MsgCreated (ctx : value)
| MsgRpy2Check
| MsgErrContext (t : body_text)
| MsgInstalling (package : string) (ctx : value)
| MsgOutput (out : value)
| MsgCheckingInstall (package : string)
| MsgChecking (package : string) (ctx : value)
| MsgInstalled (package : string) (ctx : value)
| MsgNotInstalled (package : string) (ctx : value)
| MsgCantCheck (package : string) (ctx : value)
| MsgResult (res : value)
| MsgCantParse (res : value)
| MsgNoResponse
| MsgNoContext
| MsgNoRpy2
| MsgEmptyCommand
| MsgSubmitted (run_id : value)
| MsgErrExecute (t : body_text)
| MsgState (run_id status : value)
| MsgErrStatus (run_id : value) (t : body_text)
| MsgCompleted (run_id status : value)
| MsgNoContextDestroy
| MsgDestroyed (cluster : value).

Inductive event : Type :=
| Log (l : level) (m : message)
| Sleep (seconds : Z)
| Http (r : request).

(** ** The client object *)

Record DBRXCluster : Type := mkCluster {
  _api_url : string;
  _api_token : string;
  _headers : list (string * string);
  _cluster_id : value;
  _context : value;
  polling_int_sec : Z;
  rpy2 : option bool
}.

Definition bearer (token : string) : list (string * string) :=
  [("Authorization", "Bearer " ++ token); ("Content-Type", "application/json")].

Definition rpy2_types : list string := ["yes"; "no"; "check"].

(** [x in l] for a list of string literals. *)
Definition str_in (v : value) (l : list string) : bool :=
  existsb (str_eq v) l.

(** [DBRXCluster(api_url, api_token, polling_int_sec, rpy2)] *)
Definition __init__ (api_url api_token : string) (polling : Z) (rpy2_arg : value)
  : outcome DBRXCluster :=
  if negb (str_in rpy2_arg rpy2_types) then Raise ValueError
  else
    Ret {| _api_url := api_url;
           _api_token := api_token;
           _headers := bearer api_token;
           _cluster_id := VNone;
           _context := VNone;
           polling_int_sec := polling;
           rpy2 := if str_eq rpy2_arg "yes" then Some true
                   else if str_eq rpy2_arg "no" then Some false
                   else None |}.

(** ** Properties of the class

    The class body binds its properties one decorator after the other; a later
    binding of a name replaces the earlier one.  [property f] is a property
    with getter [f]; [p.setter(g)] is a copy of [p] with setter [g], bound to
    the name of the function it decorates. *)

Record property : Type := mkProperty {
  fget : option (DBRXCluster -> string);
  fset : option (string -> DBRXCluster -> DBRXCluster)
}.

Definition property_of (f : DBRXCluster -> string) : property :=
  {| fget := Some f; fset := None |}.

Definition setter (p : property) (g : string -> DBRXCluster -> DBRXCluster)
  : property :=
  {| fget := fget p; fset := Some g |}.

(** [obj.name] and [obj.name = v] through a property. *)
Definition getattr (p : property) (c : DBRXCluster) : outcome string :=
  match fget p with
  | Some f => Ret (f c)
  | None => Raise AttributeError
  end.

Definition setattr (p : property) (v : string) (c : DBRXCluster)
  : outcome DBRXCluster :=
  match fset p with
  | Some g => Ret (g v c)
  | None => Raise AttributeError
  end.

(** The decorated functions (lines 57 to 83). *)

(* line 58 *)
Definition api_token_getter (c : DBRXCluster) : string := _api_token c.

(* line 62 *)
Definition api_token_setter (token : string) (c : DBRXCluster) : DBRXCluster :=
  {| _api_url := _api_url c;
     _api_token := token;
     _headers := bearer token;
     _cluster_id := _cluster_id c;
     _context := _context c;
     polling_int_sec := polling_int_sec c;
     rpy2 := rpy2 c |}.

(* line 78 *)
Definition api_url_getter (c : DBRXCluster) : string := _api_url c.

(* line 82: the function is named [api_token]; its body assigns [_api_url] *)
Definition api_url_setter (api_url : string) (c : DBRXCluster) : DBRXCluster :=
  {| _api_url := api_url;
     _api_token := _api_token c;
     _headers := _headers c;
     _cluster_id := _cluster_id c;
     _context := _context c;
     polling_int_sec := polling_int_sec c;
     rpy2 := rpy2 c |}.

(** The namespace of the class body: the latest binding of a name first. *)
Definition namespace := list (string * property).

Fixpoint ns_lookup (ns : namespace) (name : string) : option property :=
  match ns with
  | [] => None
  | (n, p) :: ns' => if (n =? name)%string then Some p else ns_lookup ns' name
  end.

(** [@property] over [def name]. *)
Definition def_property (ns : namespace) (name : string)
    (f : DBRXCluster -> string) : namespace :=
  (name, property_of f) :: ns.

(** [@base.setter] over [def name]: [base] is looked up when the decorator
    runs, the result is bound to [name].  (An unbound [base] would be a
    [NameError] at class creation; the class body below has none.) *)
Definition def_setter (ns : namespace) (base name : string)
    (g : string -> DBRXCluster -> DBRXCluster) : namespace :=
  match ns_lookup ns base with
  | Some p => (name, setter p g) :: ns
  | None => ns
  end.

Definition class_body : namespace :=
  let ns := [] in
  (* line 57 *) let ns := def_property ns "api_token" api_token_getter in
  (* line 61 *) let ns := def_setter ns "api_token" "api_token" api_token_setter in
  (* line 77 *) let ns := def_property ns "api_url" api_url_getter in
  (* line 81 *) let ns := def_setter ns "api_url" "api_token" api_url_setter in
  ns.

Definition class_attr (name : string) : property :=
  match ns_lookup class_body name with
  | Some p => p
  | None => {| fget := None; fset := None |}
  end.

(** The class attributes [api_token] and [api_url] once the class body has
    run. *)
Definition api_token : property := class_attr "api_token".
Definition api_url : property := class_attr "api_url".

(** [cluster.cluster_id = v] (lines 73 to 75). *)
Definition set_cluster_id (v : value) (c : DBRXCluster) : DBRXCluster :=
  {| _api_url := _api_url c;
     _api_token := _api_token c;
     _headers := _headers c;
     _cluster_id := v;
     _context := _context c;
     polling_int_sec := polling_int_sec c;
     rpy2 := rpy2 c |}.

Definition set_context (v : value) (c : DBRXCluster) : DBRXCluster :=
  {| _api_url := _api_url c;
     _api_token := _api_token c;
     _headers := _headers c;
     _cluster_id := _cluster_id c;
     _context := v;
     polling_int_sec := polling_int_sec c;
     rpy2 := rpy2 c |}.

Definition set_rpy2 (b : option bool) (c : DBRXCluster) : DBRXCluster :=
  {| _api_url := _api_url c;
     _api_token := _api_token c;
     _headers := _headers c;
     _cluster_id := _cluster_id c;
     _context := _context c;
     polling_int_sec := polling_int_sec c;
     rpy2 := b |}.

(** ** Code sent to the remote interpreter *)

Definition dq : string := String "034"%char EmptyString.
Definition nl : string := String "010"%char EmptyString.
Definition sp8 : string := "        ".
Definition sp12 : string := "            ".

(* lines 193 to 199 *)
Definition probe_code (package : string) : string :=
  nl ++ sp8 ++ "try:" ++
  nl ++ sp12 ++ "import " ++ package ++
  nl ++ sp12 ++ "print(" ++ dq ++ "Success" ++ dq ++ ")" ++
  nl ++ sp8 ++ "except ImportError as e:" ++
  nl ++ sp12 ++ "print(" ++ dq ++ "Failure" ++ dq ++ ")" ++
  nl ++ sp8.

(* lines 128 to 130 *)
Definition pip_code (package : string) : string :=
  nl ++ sp12 ++ "import subprocess" ++
  nl ++ sp12 ++ "subprocess.check_output(['pip', 'install', '" ++ package ++ "'])".

(* lines 231 to 234 *)
Definition r_wrapper (r_code : string) : string :=
  nl ++ sp8 ++ "import rpy2.robjects as robjects" ++
  nl ++ sp8 ++ "res = robjects.r('''" ++ r_code ++ "''')" ++
  nl ++ sp8 ++ "res.r_repr()".

(** ** Sleeping

    [time.sleep(d)] converts its seconds to a signed 64-bit count of
    nanoseconds before anything else (CPython 3.11): a number of seconds
    beyond [sleep_max] on either side raises [OverflowError].  A negative
    duration that converts raises [ValueError].  The polling interval is
    taken in whole seconds; an interval given as a float is outside this
    model. *)

Definition sleep_max : Z := 9223372036.

(** What [time.sleep d] raises instead of sleeping, if anything. *)
Definition sleep_refusal (d : Z) : option exn :=
  if (d <? - sleep_max) || (sleep_max <? d) then Some OverflowError
  else if d <? 0 then Some ValueError
  else None.

Arguments sleep_refusal : simpl never.

(** ** The machine and its monad *)

Section Client.

(** The remote service: any state machine answering requests. *)
Variable T : Type.
Variable send : request -> T -> response * T.

Record machine : Type := mkMachine {
  self : DBRXCluster;
  net : T;
  trace : list event
}.

Definition M (A : Type) : Type := machine -> outcome A * machine.

Definition ret {A} (a : A) : M A := fun m => (Ret a, m).

Definition bind {A B} (c : M A) (k : A -> M B) : M B :=
  fun m =>
    match c m with
    | (Ret a, m') => k a m'
    | (Raise e, m') => (Raise e, m')
    | (OutOfFuel, m') => (OutOfFuel, m')
    end.

Definition lift {A} (o : outcome A) : M A := fun m => (o, m).

Definition raise {A} (e : exn) : M A := lift (Raise e).

Definition get_self : M DBRXCluster := fun m => (Ret (self m), m).

Definition update_self (f : DBRXCluster -> DBRXCluster) : M unit :=
  fun m => (Ret tt, {| self := f (self m); net := net m; trace := trace m |}).

Definition emit (e : event) : M unit :=
  fun m => (Ret tt, {| self := self m; net := net m; trace := trace m ++ [e] |}).

Definition log (l : level) (msg : message) : M unit := emit (Log l msg).

(** [time.sleep(d)]: a refused duration raises, any other is slept. *)
Definition sleep (d : Z) : M unit :=
  match sleep_refusal d with
  | Some e => raise e
  | None => emit (Sleep d)
  end.

(** [requests.get] / [requests.post]: the request goes on the trace and the
    service answers it.  The service always answers: connection failures,
    which [requests] reports by raising, are outside the model. *)
Definition http (r : request) : M response :=
  fun m =>
    let (resp, t') := send r (net m) in
    (Ret resp, {| self := self m; net := t'; trace := trace m ++ [Http r] |}).

End Client.

Arguments ret {T A} a.
Arguments bind {T A B} c k.
Arguments lift {T A} o.
Arguments raise {T A} e.
Arguments get_self {T}.
Arguments update_self {T} f.
Arguments emit {T} e.
Arguments log {T} l msg.
Arguments sleep {T} d.
Arguments http {T} send r.
Arguments mkMachine {T} self net trace.
Arguments self {T} m.
Arguments net {T} m.
Arguments trace {T} m.

Declare Scope py_scope.
Delimit Scope py_scope with py.
Notation "x <- c ;; k" := (bind c (fun x => k))
  (at level 61, c at next level, right associativity) : py_scope.
Notation "c ;; k" := (bind c (fun _ => k))
  (at level 61, right associativity) : py_scope.
Local Open Scope py_scope.

(** ** The methods of [DBRXCluster] *)

Section Methods.

Variable T : Type.
Variable send : request -> T -> response * T.

(** The body of the run submission (lines 248 to 253). *)
Definition execute_body (c : DBRXCluster) (command : string) : dict :=
  [("language", VStr "python");
   ("clusterId", _cluster_id c);
   ("command", VStr command);
   ("contextId", _context c)].

Definition execute_request (c : DBRXCluster) (command : string) : request :=
  mkRequest POST (_api_url c ++ "/commands/execute") (_headers c)
    (execute_body c command).

(** The parameters of a status poll (lines 268 and 269). *)
Definition status_body (c : DBRXCluster) (command : string) (run_id : value)
  : dict :=
  dict_set (dict_pop (execute_body c command) "command") "commandId" run_id.

(** The [while] loop of [_execute] (lines 272 to 283).  [status] and
    [command_info] are the locals of that name; the loop returns them as
    they are when it exits. *)
Fixpoint poll_loop (fuel : nat) (run_id : value) (body : dict)
    (status : value) (command_info : option value)
  : M T (value * option value) :=
  if str_eq status "Running" || str_eq status "Queued" then
    match fuel with
    | O => lift OutOfFuel
    | S fuel' =>
        log INFO (MsgState run_id status) ;;
        c <- get_self ;;
        sleep (polling_int_sec c) ;;
        base <- lift (getattr api_url c) ;;
        response <- http send
          (mkRequest GET (base ++ "/commands/status") (_headers c) body) ;;
        if status_code response =? 200 then
          info <- lift (json_loads (text response)) ;;
          status' <- lift (getitem info "status") ;;
          poll_loop fuel' run_id body status' (Some info)
        else
          log ERROR (MsgErrStatus run_id (text response)) ;;
          poll_loop fuel' run_id body status command_info
    end
  else ret (status, command_info).

(** [_execute(command)] (lines 238 to 292).  The local [run_id] is bound
    only on the 200 branch of the submission. *)
Definition _execute (fuel : nat) (command : string) : M T value :=
  c <- get_self ;;
  (if is_None (_context c)
   then log ERROR MsgNoContext ;; raise ContextNotSetException
   else ret tt) ;;
  (if (command =? "")%string then log ERROR MsgEmptyCommand else ret tt) ;;
  response <- http send (execute_request c command) ;;
  run_id <- (if status_code response =? 200 then
               reply <- lift (json_loads (text response)) ;;
               id <- lift (getitem reply "id") ;;
               log INFO (MsgSubmitted id) ;;
               ret (Some id)
             else
               log ERROR (MsgErrExecute (text response)) ;;
               ret None) ;;
  id <- lift (load_local "run_id" run_id) ;;
  if negb (is_None id) then
    out <- poll_loop fuel id (status_body c command id) (VStr "Running") None ;;
    let (status, command_info) := out in
    log INFO (MsgCompleted id status) ;;
    if str_eq status "Finished"
    then lift (load_local "command_info" command_info)
    else ret VNone
  else ret VNone.

(** [res["results"][key]] *)
Definition results_field (res : value) (key : string) : outcome value :=
  match getitem res "results" with
  | Ret r => getitem r key
  | Raise e => Raise e
  | OutOfFuel => OutOfFuel
  end.

(** [(res_type == "text") and (res["results"]["data"] == sentinel)]: the
    data is looked up only when the type is "text". *)
Definition text_is (res res_type : value) (sentinel : string) : M T bool :=
  if str_eq res_type "text" then
    data <- lift (results_field res "data") ;;
    ret (str_eq data sentinel)
  else ret false.

(** Lines 202 to 219: what [_python_package_installed] does with the result
    of [_execute]. *)
Definition classify (package : string) (res : value) : M T bool :=
  if truthy res then
    res_type <- lift (results_field res "resultType") ;;
    c <- get_self ;;
    ok <- text_is res res_type "Success" ;;
    if ok then
      log INFO (MsgInstalled package (_context c)) ;;
      ret true
    else
      ko <- text_is res res_type "Failure" ;;
      if ko then
        log INFO (MsgNotInstalled package (_context c)) ;;
        ret false
      else if str_eq res_type "error" then
        log INFO (MsgCantCheck package (_context c)) ;;
        log INFO (MsgResult res) ;;
        raise RuntimeError
      else
        log WARNING (MsgCantParse res) ;;
        raise RuntimeError
  else
    log WARNING MsgNoResponse ;;
    raise RuntimeError.

(** [_python_package_installed(package)] (lines 189 to 219). *)
Definition _python_package_installed (fuel : nat) (package : string) : M T bool :=
  c <- get_self ;;
  log INFO (MsgChecking package (_context c)) ;;
  res <- _execute fuel (probe_code package) ;;
  classify package res.

(** [create_context(context)] (lines 85 to 116). *)
Definition create_context (fuel : nat) (context : string) : M T bool :=
  c <- get_self ;;
  if truthy (_context c) then
    log ERROR (MsgContextExists (_context c)) ;;
    ret false
  else
    let body := [("language", VStr "python");
                 ("clusterId", _cluster_id c);
                 ("name", VStr context)] in
    log INFO (MsgCreating context (_cluster_id c)) ;;
    response <- http send
      (mkRequest POST (_api_url c ++ "/contexts/create") (_headers c) body) ;;
    if status_code response =? 200 then
      reply <- lift (json_loads (text response)) ;;
      id <- lift (getitem reply "id") ;;
      update_self (set_context id) ;;
      log INFO (MsgCreated id) ;;
      c' <- get_self ;;
      match rpy2 c' with
      | None =>
          log INFO MsgRpy2Check ;;
          b <- _python_package_installed fuel "rpy2" ;;
          update_self (set_rpy2 (Some b)) ;;
          ret true
      | Some _ => ret true
      end
    else
      log ERROR (MsgErrContext (text response)) ;;
      ret false.

(** [install_py_package(package, verbose)] (lines 119 to 139). *)
Definition install_py_package (fuel : nat) (package : string) (verbose : bool)
  : M T bool :=
  c <- get_self ;;
  log INFO (MsgInstalling package (_context c)) ;;
  present <- _python_package_installed fuel package ;;
  if present then ret true
  else
    ex_output <- _execute fuel (pip_code package) ;;
    (if verbose then log INFO (MsgOutput ex_output) else ret tt) ;;
    log INFO (MsgCheckingInstall package) ;;
    _python_package_installed fuel package.

(** [execute_R(r_code)] (lines 221 to 236).  It returns [False] or what
    [_execute] returns. *)
Definition execute_R (fuel : nat) (r_code : string) : M T value :=
  c <- get_self ;;
  (if is_None (_context c)
   then log ERROR MsgNoContext ;; raise ContextNotSetException
   else ret tt) ;;
  match rpy2 c with
  | Some true => _execute fuel (r_wrapper r_code)
  | _ =>
      log ERROR MsgNoRpy2 ;;
      ret (VBool false)
  end.

(** [destroy_context()] (lines 295 to 316). *)
Definition destroy_context : M T bool :=
  c <- get_self ;;
  (if is_None (_context c)
   then log ERROR MsgNoContextDestroy ;; raise ContextNotSetException
   else ret tt) ;;
  let body := [("clusterId", _cluster_id c); ("contextId", _context c)] in
  response <- http send
    (mkRequest POST (_api_url c ++ "/contexts/destroy") (_headers c) body) ;;
  if status_code response =? 200 then
    log INFO (MsgDestroyed (_cluster_id c)) ;;
    ret true
  else
    log ERROR (MsgErrContext (text response)) ;;
    ret false.

End Methods.

Arguments poll_loop {T} send fuel run_id body status command_info.
Arguments _execute {T} send fuel command.
Arguments classify {T} package res.
Arguments text_is {T} res res_type sentinel.
Arguments _python_package_installed {T} send fuel package.
Arguments create_context {T} send fuel context.
Arguments install_py_package {T} send fuel package verbose.
Arguments execute_R {T} send fuel r_code.
Arguments destroy_context {T} send.

(** ** Vocabulary of the statements *)

(** The loop condition of [_execute]: [status == "Running" or status ==
    "Queued"]. *)
Definition pending (status : value) : bool :=
  str_eq status "Running" || str_eq status "Queued".

(** The request of every status poll of one run. *)
Definition status_request (c : DBRXCluster) (command : string) (run_id : value)
  : request :=
  mkRequest GET (_api_url c ++ "/commands/status") (_headers c)
    (status_body c command run_id).

(** A 200 answer whose JSON text is [info], an object with [status] under the
    key "status". *)
Definition reports (r : response) (info status : value) : Prop :=
  status_code r = 200 /\ text r = Json info /\ getitem info "status" = Ret status.

(** An answer to a poll after which the loop polls again: any answer that is
    not a 200 (the stale status stays), or a 200 reporting "Running" or
    "Queued". *)
Definition keeps_polling (r : response) : bool :=
  if status_code r =? 200 then
    match text r with
    | Json info =>
        match getitem info "status" with
        | Ret status => pending status
        | _ => false
        end
    | Garbled _ => false
    end
  else true.

Section Service.

Variable T : Type.
Variable send : request -> T -> response * T.

(** The service after [k] sendings of the request [q]. *)
Fixpoint after (q : request) (k : nat) (t : T) : T :=
  match k with
  | O => t
  | S k' => after q k' (snd (send q t))
  end.

(** Its answer to the next one: the answer number [k], counting from 0. *)
Definition answer (q : request) (k : nat) (t : T) : response :=
  fst (send q (after q k t)).

End Service.

Arguments after {T} send q k t.
Arguments answer {T} send q k t.

(** What a trace holds besides log lines: the sleeps and the requests, in
    the order they happened. *)
Fixpoint effects_of (tr : list event) : list event :=
  match tr with
  | [] => []
  | Log _ _ :: tr' => effects_of tr'
  | e :: tr' => e :: effects_of tr'
  end.

(** [k] turns of the poll loop that all reached their poll: a sleep of [d],
    then the request [q], [k] times over. *)
Fixpoint poll_turns (d : Z) (q : request) (k : nat) : list event :=
  match k with
  | O => []
  | S k' => Sleep d :: Http q :: poll_turns d q k'
  end.

(** What a trace holds of each kind of effect, in order. *)
Fixpoint requests_of (tr : list event) : list request :=
  match tr with
  | [] => []
  | Http r :: tr' => r :: requests_of tr'
  | _ :: tr' => requests_of tr'
  end.

Fixpoint sleeps_of (tr : list event) : list Z :=
  match tr with
  | [] => []
  | Sleep d :: tr' => d :: sleeps_of tr'
  | _ :: tr' => sleeps_of tr'
  end.

(** A request that submits [command] for execution. *)
Definition submits (command : string) (r : request) : bool :=
  match meth r, dict_get (payload r) "command" with
  | POST, Some v => str_eq v command
  | _, _ => false
  end.

(** ** Services to run the client against *)

(** A scripted service answers from a list, one answer per request whatever
    the request, and 503 once the list is used up. *)
Definition script := list response.

Definition play (q : request) (s : script) : response * script :=
  match s with
  | [] => (mkResponse 503 (Garbled "Service Unavailable"), [])
  | r :: s' => (r, s')
  end.

Definition created (id : value) : response :=
  mkResponse 200 (Json (VDict [("id", id)])).

Definition status_info (status : string) (result_type data : value) : value :=
  VDict [("id", VStr "run-7");
         ("status", VStr status);
         ("results", VDict [("resultType", result_type); ("data", data)])].

Definition status_answer (status : string) (result_type data : value) : response :=
  mkResponse 200 (Json (status_info status result_type data)).

Definition queued : response :=
  mkResponse 200 (Json (VDict [("id", VStr "run-7"); ("status", VStr "Queued")])).

Definition running : response :=
  mkResponse 200 (Json (VDict [("id", VStr "run-7"); ("status", VStr "Running")])).

Definition unavailable : response :=
  mkResponse 502 (Garbled "Bad Gateway").

(** A service that accepts every submission and then reports the run as
    queued for ever. *)
Definition never_scheduled (q : request) (t : unit) : response * unit :=
  match meth q with
  | POST => (created (VStr "run-7"), t)
  | GET => (queued, t)
  end.

(** A service that accepts every submission and then fails every poll. *)
Definition status_down (q : request) (t : unit) : response * unit :=
  match meth q with
  | POST => (created (VStr "run-7"), t)
  | GET => (unavailable, t)
  end.

(** A client as the demo script sets it up, with a context already created. *)
Definition demo_client (context : value) (flag : option bool) : DBRXCluster :=
  {| _api_url := "https://dbc.example/api/1.2";
     _api_token := "T1";
     _headers := bearer "T1";
     _cluster_id := VStr "0612-abc";
     _context := context;
     polling_int_sec := 1;
     rpy2 := flag |}.

Definition boot {T} (c : DBRXCluster) (t : T) : machine T :=
  mkMachine c t [].

(** What [_execute] logs about its command before submitting it. *)
Definition command_complaint (command : string) : list event :=
  if (command =? "")%string then [Log ERROR MsgEmptyCommand] else [].

(** The service accepts the submission [q]: it answers 200 with an object
    whose "id" is [id], and [id] is not null. *)
Definition accepts {T} (send : request -> T -> response * T)
    (q : request) (t : T) (id : value) : Prop :=
  exists reply,
    status_code (fst (send q t)) = 200 /\
    text (fst (send q t)) = Json reply /\
    getitem reply "id" = Ret id /\
    is_None id = false.

(** The locals [status] and [command_info] of [_execute] are consistent when
    a status that is not one of the loop's is the one of the payload held in
    [command_info]. *)
Definition consistent (status : value) (command_info : option value) : Prop :=
  pending status = true \/
  exists info, command_info = Some info /\ getitem info "status" = Ret status.

(** The request the poll loop sends at every turn, for the parameters
    [body]. *)
Definition poll_request (c : DBRXCluster) (body : dict) : request :=
  mkRequest GET (_api_url c ++ "/commands/status") (_headers c) body.

(** ** The R presence probe *)

Definition sp16 : string := "                ".

(* lines 163 to 166 *)
Definition r_probe_code (package : string) : string :=
  nl ++ sp16 ++ "import rpy2.robjects as robjects" ++
  nl ++ sp16 ++ "res = robjects.r('''" ++ dq ++ package ++ dq ++
    " %in% rownames(installed.packages())''')" ++
  nl ++ sp16 ++ "print(res.r_repr())".

Section RProbe.

Variable T : Type.
Variable send : request -> T -> response * T.

(** Lines 170 to 187: what [_r_package_installed] does with the result of
    [_execute].  Its log lines are those of the Python probe. *)
Definition classify_R (package : string) (res : value) : M T bool :=
  if truthy res then
    res_type <- lift (results_field res "resultType") ;;
    c <- get_self ;;
    ok <- text_is res res_type "TRUE" ;;
    if ok then
      log INFO (MsgInstalled package (_context c)) ;;
      ret true
    else
      ko <- text_is res res_type "FALSE" ;;
      if ko then
        log INFO (MsgNotInstalled package (_context c)) ;;
        ret false
      else if str_eq res_type "error" then
        log INFO (MsgCantCheck package (_context c)) ;;
        log INFO (MsgResult res) ;;
        raise RuntimeError
      else
        log WARNING (MsgCantParse res) ;;
        raise RuntimeError
  else
    log WARNING MsgNoResponse ;;
    raise RuntimeError.

(** [_r_package_installed(package)] (lines 161 to 187). *)
Definition _r_package_installed (fuel : nat) (package : string) : M T bool :=
  res <- _execute send fuel (r_probe_code package) ;;
  classify_R package res.

End RProbe.

Arguments classify_R {T} package res.
Arguments _r_package_installed {T} send fuel package.

(** ** More vocabulary *)

(** The request of [create_context] (lines 90 to 100). *)
Definition create_request (c : DBRXCluster) (name : string) : request :=
  mkRequest POST (_api_url c ++ "/contexts/create") (_headers c)
    [("language", VStr "python");
     ("clusterId", _cluster_id c);
     ("name", VStr name)].

(** The request of [destroy_context] (lines 302 to 307). *)
Definition destroy_request (c : DBRXCluster) : request :=
  mkRequest POST (_api_url c ++ "/contexts/destroy") (_headers c)
    [("clusterId", _cluster_id c); ("contextId", _context c)].

(** What no method is meant to change: everything but the context
    identifier and the R-interop flag. *)
Definition same_configuration (c c' : DBRXCluster) : Prop :=
  _api_url c' = _api_url c /\
  _api_token c' = _api_token c /\
  _headers c' = _headers c /\
  _cluster_id c' = _cluster_id c /\
  polling_int_sec c' = polling_int_sec c.

(** [cluster.polling_int_sec = d] and [cluster.rpy2 = b]: plain public
    attributes. *)
Definition set_polling_int_sec (d : Z) (c : DBRXCluster) : DBRXCluster :=
  {| _api_url := _api_url c;
     _api_token := _api_token c;
     _headers := _headers c;
     _cluster_id := _cluster_id c;
     _context := _context c;
     polling_int_sec := d;
     rpy2 := rpy2 c |}.

(** One use of the public interface of a client: an assignment to one of its
    properties or public attributes, or a call of one of its public methods
    against some service, however the call ends. *)
Inductive public_step : DBRXCluster -> DBRXCluster -> Prop :=
| step_api_token (v : string) (c c' : DBRXCluster) :
    setattr api_token v c = Ret c' -> public_step c c'
| step_api_url (v : string) (c c' : DBRXCluster) :
    setattr api_url v c = Ret c' -> public_step c c'
| step_cluster_id (v : value) (c : DBRXCluster) :
    public_step c (set_cluster_id v c)
| step_polling_int_sec (d : Z) (c : DBRXCluster) :
    public_step c (set_polling_int_sec d c)
| step_rpy2 (b : option bool) (c : DBRXCluster) :
    public_step c (set_rpy2 b c)
| step_create_context (T : Type) (send : request -> T -> response * T)
    (fuel : nat) (name : string) (t : T) (tr : list event) (c : DBRXCluster) :
    public_step c
      (self (snd (create_context send fuel name (mkMachine c t tr))))
| step_destroy_context (T : Type) (send : request -> T -> response * T)
    (t : T) (tr : list event) (c : DBRXCluster) :
    public_step c (self (snd (destroy_context send (mkMachine c t tr))))
| step_install_py_package (T : Type) (send : request -> T -> response * T)
    (fuel : nat) (package : string) (verbose : bool) (t : T) (tr : list event)
    (c : DBRXCluster) :
    public_step c
      (self (snd (install_py_package send fuel package verbose
                    (mkMachine c t tr))))
| step_execute_R (T : Type) (send : request -> T -> response * T)
    (fuel : nat) (r_code : string) (t : T) (tr : list event) (c : DBRXCluster) :
    public_step c (self (snd (execute_R send fuel r_code (mkMachine c t tr)))).

(** Any number of uses, one after the other. *)
Inductive public_use : DBRXCluster -> DBRXCluster -> Prop :=
| use_none (c : DBRXCluster) : public_use c c
| use_more (c c' c'' : DBRXCluster) :
    public_use c c' -> public_step c' c'' -> public_use c c''.

(** ** [install_R_package] *)

(* lines 148 to 150 *)
Definition r_install_code (package : string) : string :=
  nl ++ sp12 ++ "import subprocess" ++
  nl ++ sp12 ++ "subprocess.check_output(['R', '-e', " ++ dq ++
    "install.packages('" ++ package ++
    "', dependencies=TRUE, repos='http://cran.rstudio.com/')" ++ dq ++ "])".

(** The two log lines that only [install_R_package] writes, both at level
    INFO (lines 143 and 156). *)
Inductive r_message : Type :=
| MsgInstallingR (package : string) (ctx : value)
| MsgCheckingInstallR (package : string).

(** A machine together with those lines.  Each line is kept with the length
    the trace had when it was written, which places it among the events of
    the trace. *)
Record r_machine (T : Type) : Type := mkRMachine {
  core : machine T;
  r_lines : list (nat * r_message)
}.

Arguments mkRMachine {T} core r_lines.
Arguments core {T} r.
Arguments r_lines {T} r.

Definition log_R {T} (msg : r_message) (s : r_machine T) : r_machine T :=
  {| core := core s;
     r_lines := r_lines s ++ [(List.length (trace (core s)), msg)] |}.

Definition with_core {T} (m : machine T) (s : r_machine T) : r_machine T :=
  {| core := m; r_lines := r_lines s |}.

Section RInstall.

Variable T : Type.
Variable send : request -> T -> response * T.

(** [install_R_package(package, verbose)] (lines 141 to 159). *)
Definition install_R_package (fuel : nat) (package : string) (verbose : bool)
    (s : r_machine T) : outcome bool * r_machine T :=
  let s1 := log_R (MsgInstallingR package (_context (self (core s)))) s in
  match _r_package_installed send fuel package (core s1) with
  | (Ret true, m1) => (Ret true, with_core m1 s1)
  | (Ret false, m1) =>
      match _execute send fuel (r_install_code package) m1 with
      | (Ret ex_output, m2) =>
          let m3 := if verbose
                    then snd (log INFO (MsgOutput ex_output) m2)
                    else m2 in
          let s3 := log_R (MsgCheckingInstallR package) (with_core m3 s1) in
          let (o, m4) := _r_package_installed send fuel package (core s3) in
          (o, with_core m4 s3)
      | (Raise e, m2) => (Raise e, with_core m2 s1)
      | (OutOfFuel, m2) => (OutOfFuel, with_core m2 s1)
      end
  | (Raise e, m1) => (Raise e, with_core m1 s1)
  | (OutOfFuel, m1) => (OutOfFuel, with_core m1 s1)
  end.

End RInstall.

Arguments install_R_package {T} send fuel package verbose s.

(** * Properties *)

Local Open Scope list_scope.

(** ** The constructor *)

Lemma str_eq_true (v : value) (s : string) :
  str_eq v s = true -> v = VStr s.
Proof.
  destruct v; simpl; try discriminate.
  intros H. apply String.eqb_eq in H. now subst.
Qed.

Lemma str_in_rpy2_types (v : value) :
  str_in v rpy2_types = true ->
  v = VStr "yes" \/ v = VStr "no" \/ v = VStr "check".
Proof.
  unfold str_in, rpy2_types. simpl.
  destruct (str_eq v "yes") eqn:Hy; [left; now apply str_eq_true|].
  destruct (str_eq v "no") eqn:Hn; [right; left; now apply str_eq_true|].
  destruct (str_eq v "check") eqn:Hc; [right; right; now apply str_eq_true|].
  discriminate.
Qed.

(** C10. The constructor validates its [rpy2] argument: every value other
    than "yes", "no" and "check" raises [ValueError] and no client is built;
    "yes" builds a client whose flag is resolved to true, "no" one whose flag
    is resolved to false, and "check" one whose flag is left unresolved. *)
Theorem init_validates_rpy2 (u tok : string) (p : Z) :
  (forall v : value,
      v <> VStr "yes" -> v <> VStr "no" -> v <> VStr "check" ->
      __init__ u tok p v = Raise ValueError) /\
  (exists c, __init__ u tok p (VStr "yes") = Ret c /\ rpy2 c = Some true) /\
  (exists c, __init__ u tok p (VStr "no") = Ret c /\ rpy2 c = Some false) /\
  (exists c, __init__ u tok p (VStr "check") = Ret c /\ rpy2 c = None).
Proof.
  split; [|repeat split; eexists; split; reflexivity].
  intros v Hy Hn Hc. unfold __init__.
  destruct (str_in v rpy2_types) eqn:E; [|reflexivity].
  apply str_in_rpy2_types in E. destruct E as [E | [E | E]]; contradiction.
Qed.

Lemma init_validates_rpy2_witness :
  __init__ "https://dbc.example/api/1.2" "T1" 1 (VStr "maybe") = Raise ValueError /\
  __init__ "https://dbc.example/api/1.2" "T1" 1 (VBool true) = Raise ValueError.
Proof.
  split;
    apply (proj1 (init_validates_rpy2 "https://dbc.example/api/1.2" "T1" 1));
    discriminate.
Defined.

(** A freshly built client has no cluster, no context, and headers made from
    its token. *)
Lemma init_fields (u tok : string) (p : Z) (v : value) (c : DBRXCluster) :
  __init__ u tok p v = Ret c ->
  _api_url c = u /\ _api_token c = tok /\ _headers c = bearer tok /\
  _cluster_id c = VNone /\ _context c = VNone /\ polling_int_sec c = p.
Proof.
  unfold __init__. destruct (negb (str_in v rpy2_types)); [discriminate|].
  intros H. injection H as <-. repeat split.
Qed.

(** ** The properties [api_token] and [api_url] *)

(** What the class body leaves bound to the two names. *)
Lemma api_token_binding :
  api_token = {| fget := Some api_url_getter; fset := Some api_url_setter |}.
Proof. reflexivity. Qed.

Lemma api_url_binding :
  api_url = {| fget := Some api_url_getter; fset := None |}.
Proof. reflexivity. Qed.

(** Assigning to [api_token] replaces the URL and leaves the token and the
    headers as they were; [api_url] cannot be assigned. *)
Lemma api_token_assignment (v : string) (c : DBRXCluster) :
  exists c',
    setattr api_token v c = Ret c' /\
    _api_url c' = v /\
    _api_token c' = _api_token c /\
    _headers c' = _headers c.
Proof. eexists. repeat split. Qed.

Lemma api_url_assignment (v : string) (c : DBRXCluster) :
  setattr api_url v c = Raise AttributeError.
Proof. reflexivity. Qed.

(** The setter written for the token (lines 61 to 67) does regenerate the
    headers; the class body leaves it bound to no name. *)
Lemma shadowed_token_setter (token : string) (c : DBRXCluster) :
  _api_token (api_token_setter token c) = token /\
  _headers (api_token_setter token c) = bearer token /\
  fset api_token <> Some api_token_setter /\
  fset api_url <> Some api_token_setter.
Proof.
  repeat split; try discriminate.
  intros E. injection E as E.
  apply (f_equal (fun f => _api_token (f "T2" (demo_client VNone None)))) in E.
  discriminate E.
Qed.

(** C3. Through the public setters the headers do not follow the token: on a
    client built with token "T1", the assignment [api_token = "T2"] succeeds,
    the Authorization header still carries "T1", the stored token is still
    "T1", and it is the base URL that became "T2"; reading [api_token] back
    gives that URL; the assignment [api_url = ...] raises [AttributeError]. *)
Theorem token_update_does_not_reach_headers :
  exists c c',
    __init__ "https://dbc.example/api/1.2" "T1" 1 (VStr "check") = Ret c /\
    setattr api_token "T2" c = Ret c' /\
    _headers c' = [("Authorization", "Bearer T1");
                   ("Content-Type", "application/json")] /\
    _api_token c' = "T1" /\
    _api_url c' = "T2" /\
    getattr api_token c' = Ret "T2" /\
    setattr api_url "https://other.example/api/1.2" c = Raise AttributeError.
Proof. do 2 eexists. repeat split. Qed.

(** ** Traces *)

Lemma requests_of_app (a b : list event) :
  requests_of (a ++ b) = (requests_of a ++ requests_of b)%list.
Proof.
  induction a as [|e a IH]; simpl; [reflexivity|].
  destruct e; simpl; now rewrite IH.
Qed.

Lemma sleeps_of_app (a b : list event) :
  sleeps_of (a ++ b) = (sleeps_of a ++ sleeps_of b)%list.
Proof.
  induction a as [|e a IH]; simpl; [reflexivity|].
  destruct e; simpl; now rewrite IH.
Qed.

(** ** Sleeping *)

Lemma sleep_refusal_ok (d : Z) :
  0 <= d <= sleep_max -> sleep_refusal d = None.
Proof.
  unfold sleep_refusal. intros [L U].
  destruct (Z.ltb_spec d (- sleep_max)); [unfold sleep_max in *; lia|].
  destruct (Z.ltb_spec sleep_max d); [lia|].
  destruct (Z.ltb_spec d 0); [lia|]. reflexivity.
Qed.

Lemma sleep_refusal_cases (d : Z) :
  (d < - sleep_max \/ sleep_max < d -> sleep_refusal d = Some OverflowError) /\
  (- sleep_max <= d < 0 -> sleep_refusal d = Some ValueError).
Proof.
  unfold sleep_refusal. split.
  - intros [L|U].
    + destruct (Z.ltb_spec d (- sleep_max)); [reflexivity|lia].
    + destruct (Z.ltb_spec d (- sleep_max)); [reflexivity|].
      destruct (Z.ltb_spec sleep_max d); [reflexivity|lia].
  - intros [L U].
    destruct (Z.ltb_spec d (- sleep_max)); [lia|].
    destruct (Z.ltb_spec sleep_max d); [unfold sleep_max in *; lia|].
    destruct (Z.ltb_spec d 0); [reflexivity|lia].
Qed.

(** ** The poll loop *)

Section PollLoop.

Variable T : Type.
Variable send : request -> T -> response * T.

Variables (run_id : value) (body : dict) (c : DBRXCluster).

(** The request the loop sends at every turn. *)
Let q : request :=
  mkRequest GET (_api_url c ++ "/commands/status") (_headers c) body.

Hypothesis interval_ok : 0 <= polling_int_sec c <= sleep_max.

Lemma keeps_polling_inv (r : response) :
  keeps_polling r = true ->
  status_code r <> 200 \/
  exists info status, reports r info status /\ pending status = true.
Proof.
  unfold keeps_polling, reports.
  destruct (Z.eqb_spec (status_code r) 200) as [E|E]; [|now left].
  destruct (text r) as [info|raw]; [|discriminate].
  destruct (getitem info "status") as [status| |] eqn:G; try discriminate.
  intros P. right. exists info, status. auto.
Qed.

(** Outside {Running, Queued} the loop is over, whatever the fuel. *)
Lemma poll_loop_exit fuel status command_info (m : machine T) :
  pending status = false ->
  poll_loop send fuel run_id body status command_info m
  = (Ret (status, command_info), m).
Proof.
  unfold pending. intros P. destruct fuel; simpl; rewrite P; reflexivity.
Qed.

(** One turn of the loop on an answer that is not a 200: the status and
    [command_info] are the stale ones. *)
Lemma poll_loop_stale fuel status command_info t tr :
  pending status = true ->
  status_code (fst (send q t)) <> 200 ->
  poll_loop send (S fuel) run_id body status command_info (mkMachine c t tr)
  = poll_loop send fuel run_id body status command_info
      (mkMachine c (snd (send q t))
         (tr ++ [Log INFO (MsgState run_id status);
                 Sleep (polling_int_sec c);
                 Http q;
                 Log ERROR (MsgErrStatus run_id (text (fst (send q t))))])).
Proof.
  unfold pending. intros P E. simpl. rewrite P.
  unfold bind, log, emit, get_self, sleep, http, lift. simpl.
  rewrite (sleep_refusal_ok _ interval_ok). simpl.
  unfold api_url_getter. fold q.
  destruct (send q t) as [r t'] eqn:S. simpl in *.
  destruct (Z.eqb_spec (status_code r) 200) as [E'|_]; [contradiction|].
  cbn [self net trace]. rewrite <- !app_assoc. reflexivity.
Qed.

(** One turn of the loop on a 200 answer: the reported status and payload
    replace the locals. *)
Lemma poll_loop_report fuel status command_info t tr info status' :
  pending status = true ->
  reports (fst (send q t)) info status' ->
  poll_loop send (S fuel) run_id body status command_info (mkMachine c t tr)
  = poll_loop send fuel run_id body status' (Some info)
      (mkMachine c (snd (send q t))
         (tr ++ [Log INFO (MsgState run_id status);
                 Sleep (polling_int_sec c);
                 Http q])).
Proof.
  unfold pending. intros P (E & J & G). simpl. rewrite P.
  unfold bind, log, emit, get_self, sleep, http, lift. simpl.
  rewrite (sleep_refusal_ok _ interval_ok). simpl.
  unfold api_url_getter. fold q.
  destruct (send q t) as [r t'] eqn:S. simpl in *.
  rewrite E, J. simpl. rewrite G.
  cbn [self net trace]. rewrite <- ?app_assoc. reflexivity.
Qed.

(** After [n] answers that keep the loop polling, an answer reporting a
    status outside {Running, Queued} ends the loop: it has polled [n + 1]
    times, slept the interval before each poll, and holds the reported
    status and payload. *)
Lemma poll_loop_settles (n : nat) info final :
  forall fuel status command_info t tr,
    pending status = true ->
    (forall k, (k < n)%nat -> keeps_polling (answer send q k t) = true) ->
    reports (answer send q n t) info final ->
    pending final = false ->
    (n < fuel)%nat ->
    exists tr',
      poll_loop send fuel run_id body status command_info (mkMachine c t tr)
      = (Ret (final, Some info),
         mkMachine c (after send q (S n) t) (tr ++ tr')) /\
      requests_of tr' = repeat q (S n) /\
      sleeps_of tr' = repeat (polling_int_sec c) (S n).
Proof.
  induction n as [|n IH]; intros fuel status command_info t tr P K R F L.
  - destruct fuel as [|fuel]; [lia|].
    unfold answer in R. simpl in R.
    eexists. rewrite (poll_loop_report _ _ _ _ _ _ _ P R).
    rewrite poll_loop_exit by exact F.
    repeat split.
  - destruct fuel as [|fuel]; [lia|].
    assert (K' : forall k, (k < n)%nat ->
              keeps_polling (answer send q k (snd (send q t))) = true).
    { intros k Hk. apply (K (S k)). lia. }
    assert (L' : (n < fuel)%nat) by lia.
    pose proof (K 0%nat ltac:(lia)) as K0. unfold answer in K0. simpl in K0.
    apply keeps_polling_inv in K0.
    destruct K0 as [E | (info0 & status0 & R0 & P0)].
    + rewrite (poll_loop_stale _ _ _ _ _ P E).
      edestruct (IH fuel status command_info (snd (send q t)))
        as (tr' & E1 & E2 & E3); [exact P|exact K'|exact R|exact F|exact L'|].
      eexists. rewrite E1, <- app_assoc. split; [reflexivity|].
      split; [|simpl in *; now rewrite E3].
      simpl in *. now rewrite E2.
    + rewrite (poll_loop_report _ _ _ _ _ _ _ P R0).
      edestruct (IH fuel status0 (Some info0) (snd (send q t)))
        as (tr' & E1 & E2 & E3); [exact P0|exact K'|exact R|exact F|exact L'|].
      eexists. rewrite E1, <- app_assoc. split; [reflexivity|].
      split; [|simpl in *; now rewrite E3].
      simpl in *. now rewrite E2.
Qed.

(** Against a service whose every answer keeps the loop polling, the loop
    uses up any fuel: after [fuel] turns it has polled [fuel] times and is
    still not over. *)
Lemma poll_loop_runs_on :
  forall fuel status command_info t tr,
    pending status = true ->
    (forall k, keeps_polling (answer send q k t) = true) ->
    exists tr',
      poll_loop send fuel run_id body status command_info (mkMachine c t tr)
      = (OutOfFuel, mkMachine c (after send q fuel t) (tr ++ tr')) /\
      requests_of tr' = repeat q fuel.
Proof.
  induction fuel as [|fuel IH]; intros status command_info t tr P K.
  - exists []. simpl. unfold pending in P. rewrite P, app_nil_r.
    split; reflexivity.
  - assert (K' : forall k,
              keeps_polling (answer send q k (snd (send q t))) = true).
    { intros k. apply (K (S k)). }
    pose proof (K 0%nat) as K0. unfold answer in K0. simpl in K0.
    apply keeps_polling_inv in K0.
    destruct K0 as [E | (info0 & status0 & R0 & P0)].
    + rewrite (poll_loop_stale _ _ _ _ _ P E).
      edestruct (IH status command_info (snd (send q t)))
        as (tr' & E1 & E2); [exact P|exact K'|].
      eexists. rewrite E1, <- app_assoc. split; [reflexivity|].
      simpl. now rewrite E2.
    + rewrite (poll_loop_report _ _ _ _ _ _ _ P R0).
      edestruct (IH status0 (Some info0) (snd (send q t)))
        as (tr' & E1 & E2); [exact P0|exact K'|].
      eexists. rewrite E1, <- app_assoc. split; [reflexivity|].
      simpl. now rewrite E2.
Qed.

End PollLoop.

(** ** [_execute] *)

Section Execute.

Variable T : Type.
Variable send : request -> T -> response * T.

Variables (c : DBRXCluster) (command : string).

Hypothesis context_set : is_None (_context c) = false.

(** Without a context [_execute] raises before any request. *)
Lemma execute_without_context fuel (c0 : DBRXCluster) (t : T) tr :
  is_None (_context c0) = true ->
  _execute send fuel command (mkMachine c0 t tr)
  = (Raise ContextNotSetException,
     mkMachine c0 t (tr ++ [Log ERROR MsgNoContext])).
Proof.
  intros E. unfold _execute, bind, get_self. simpl. rewrite E. reflexivity.
Qed.

(** A submission that is not answered 200 leaves the local [run_id]
    unbound, and the test [run_id is not None] that follows raises: no
    poll takes place. *)
Lemma execute_rejected fuel (t : T) tr :
  status_code (fst (send (execute_request c command) t)) <> 200 ->
  _execute send fuel command (mkMachine c t tr)
  = (Raise (UnboundLocalError "run_id"),
     mkMachine c (snd (send (execute_request c command) t))
       (tr ++ command_complaint command
           ++ [Http (execute_request c command);
               Log ERROR (MsgErrExecute
                 (text (fst (send (execute_request c command) t))))])).
Proof.
  intros E. unfold _execute, bind, get_self, command_complaint. simpl.
  rewrite context_set. simpl.
  destruct (send (execute_request c command) t) as [r t'] eqn:S.
  destruct (command =? "")%string; simpl; unfold http; simpl; rewrite S;
    simpl in *;
    destruct (Z.eqb_spec (status_code r) 200) as [E'|_];
    try contradiction; simpl; rewrite <- ?app_assoc; reflexivity.
Qed.

Variables (t0 : T) (id : value).

Hypothesis accepted : accepts send (execute_request c command) t0 id.

(** The machine when the poll loop starts. *)
Let started (tr : list event) : machine T :=
  mkMachine c (snd (send (execute_request c command) t0))
    (tr ++ command_complaint command
        ++ [Http (execute_request c command); Log INFO (MsgSubmitted id)]).

(** After an accepted submission [_execute] is its poll loop followed by
    the test of the final status. *)
Lemma execute_accepted fuel tr :
  _execute send fuel command (mkMachine c t0 tr)
  = match poll_loop send fuel id (status_body c command id)
            (VStr "Running") None (started tr) with
    | (Ret (status, command_info), m) =>
        (if str_eq status "Finished"
         then load_local "command_info" command_info
         else Ret VNone,
         mkMachine (self m) (net m)
           (trace m ++ [Log INFO (MsgCompleted id status)]))
    | (Raise e, m) => (Raise e, m)
    | (OutOfFuel, m) => (OutOfFuel, m)
    end.
Proof.
  destruct accepted as (reply & E & J & G & N).
  unfold started, _execute, bind, get_self, command_complaint. simpl.
  rewrite context_set. simpl.
  destruct (send (execute_request c command) t0) as [r t'] eqn:S.
  simpl in *.
  destruct (command =? "")%string; simpl; unfold http; simpl; rewrite S;
    simpl; rewrite E, J; simpl; rewrite G; simpl; rewrite N; simpl;
    rewrite <- ?app_assoc; simpl;
    match goal with
    | |- context [poll_loop ?s ?f ?i ?b ?st ?ci ?m] =>
        destruct (poll_loop s f i b st ci m) as [[[status ci']| |] m']
    end; try reflexivity;
    match goal with
    | |- context [str_eq ?x "Finished"] =>
        destruct (str_eq x "Finished"); reflexivity
    end.
Qed.

End Execute.

(** ** What the poll loop and [_execute] leave alone *)

(** The easy parts of a frame statement: the client, the trace and the
    requests. *)
Ltac frame_parts :=
  split; [reflexivity|];
  split; [rewrite <- ?app_assoc; reflexivity|];
  split; [simpl; repeat constructor|].

Lemma complaint_requests (command : string) :
  requests_of (command_complaint command) = [].
Proof. unfold command_complaint. now destruct (command =? "")%string. Qed.

(** The same once [_execute] has sent its submission. *)
Ltac frame_sent :=
  split; [reflexivity|];
  split; [rewrite <- ?app_assoc; reflexivity|];
  split; [rewrite requests_of_app, complaint_requests; simpl;
          constructor; [now right|]; try constructor|].

Ltac frame_raised :=
  eexists; simpl; frame_parts; intros ? ? E; discriminate E.

Section Frame.

Variable T : Type.
Variable send : request -> T -> response * T.

(** Whatever the service does, the loop leaves the client as it is, only
    adds to the trace, sends nothing but GET requests, and, when it is over,
    holds a status outside {Running, Queued} together with the payload that
    reported it. *)
Lemma poll_loop_frame run_id body :
  forall fuel status command_info (m : machine T),
  exists tr',
    self (snd (poll_loop send fuel run_id body status command_info m))
    = self m /\
    trace (snd (poll_loop send fuel run_id body status command_info m))
    = trace m ++ tr' /\
    Forall (fun q => meth q = GET) (requests_of tr') /\
    (forall final info',
        fst (poll_loop send fuel run_id body status command_info m)
        = Ret (final, info') ->
        pending final = false /\
        (consistent status command_info -> consistent final info')).
Proof.
  induction fuel as [|fuel IH]; intros status command_info [c t tr].
  - exists []. simpl. fold (pending status). rewrite app_nil_r.
    destruct (pending status) eqn:P; simpl; frame_parts.
    + intros final info' E. discriminate E.
    + intros final info' E. injection E as <- <-. auto.
  - simpl. fold (pending status).
    destruct (pending status) eqn:P.
    2:{ exists []. simpl. rewrite app_nil_r. frame_parts.
        intros final info' E. injection E as <- <-. auto. }
    unfold bind, log, emit, get_self, sleep, http, lift, raise. simpl.
    destruct (sleep_refusal (polling_int_sec c)); [frame_raised|].
    simpl.
    match goal with |- context [send ?q t] => destruct (send q t) as [r t'] end.
    simpl. destruct (status_code r =? 200).
    + destruct (text r) as [info|raw]; simpl; [|frame_raised].
      destruct (getitem info "status") as [status'| |] eqn:G; simpl;
        [|frame_raised|frame_raised].
      match goal with
      | |- context [poll_loop send fuel run_id body status' (Some info) ?m] =>
          destruct (IH status' (Some info) m) as (tr' & E1 & E2 & E3 & E4)
      end.
      eexists. rewrite E1, E2. simpl. frame_parts.
      * exact E3.
      * intros final info' E. destruct (E4 final info' E) as [F C].
        split; [exact F|]. intros _. apply C. right. eauto.
    + match goal with
      | |- context [poll_loop send fuel run_id body status command_info ?m] =>
          destruct (IH status command_info m) as (tr' & E1 & E2 & E3 & E4)
      end.
      eexists. rewrite E1, E2. simpl. frame_parts.
      * exact E3.
      * exact E4.
Qed.

Lemma complaint_run command (m : machine T) :
  (if (command =? "")%string then log ERROR MsgEmptyCommand else ret tt) m
  = (Ret tt,
     mkMachine (self m) (net m) (trace m ++ command_complaint command)).
Proof.
  unfold command_complaint. destruct m as [c t tr].
  destruct (command =? "")%string; simpl; [reflexivity|].
  now rewrite app_nil_r.
Qed.

Lemma Forall_GET_weaken (P : request -> Prop) (l : list request) :
  (forall q, meth q = GET -> P q) ->
  Forall (fun q => meth q = GET) l -> Forall P l.
Proof. intros H F. eapply Forall_impl; [|exact F]. exact H. Qed.

(** [_execute] leaves the client as it is, only adds to the trace, sends
    nothing but its submission and GET requests, and returns either [None]
    or a payload whose status is "Finished". *)
Lemma execute_frame fuel command (m : machine T) :
  exists tr',
    self (snd (_execute send fuel command m)) = self m /\
    trace (snd (_execute send fuel command m)) = trace m ++ tr' /\
    Forall (fun q => meth q = GET \/ q = execute_request (self m) command)
      (requests_of tr') /\
    (forall v,
        fst (_execute send fuel command m) = Ret v ->
        v = VNone \/ getitem v "status" = Ret (VStr "Finished")).
Proof.
  destruct m as [c t tr].
  unfold _execute, bind, get_self. simpl.
  destruct (is_None (_context c)); simpl.
  { eexists. frame_parts. intros v E. discriminate E. }
  rewrite complaint_run. simpl.
  unfold http, log, emit, lift, ret. simpl.
  destruct (send (execute_request c command) t) as [r t']. simpl.
  destruct (status_code r =? 200); simpl;
    [|eexists; frame_sent; intros v E; discriminate E].
  destruct (text r) as [reply|raw]; simpl;
    [|eexists; frame_sent; intros v E; discriminate E].
  destruct (getitem reply "id") as [id| |]; simpl;
    [|eexists; frame_sent; intros v E; discriminate E
     |eexists; frame_sent; intros v E; discriminate E].
  destruct (is_None id); simpl;
    [eexists; frame_sent; intros v E; injection E as <-; now left|].
  match goal with
  | |- context [poll_loop send fuel id ?b ?s ?ci ?m] =>
      destruct (poll_loop_frame id b fuel s ci m) as (tr' & E1 & E2 & E3 & E4);
      destruct (poll_loop send fuel id b s ci m) as [[[final info']| |] m']
  end; simpl in *;
    [|eexists; rewrite E1, E2; frame_sent;
      [apply Forall_GET_weaken with (2 := E3); auto
      |intros v E; discriminate E] ..].
  destruct (E4 final info' eq_refl) as [F C].
  destruct (C (or_introl eq_refl)) as [P|(info & -> & G)]; [congruence|].
  destruct (str_eq final "Finished") eqn:Fin; simpl;
    eexists; rewrite E1, E2; frame_sent;
    try (rewrite requests_of_app; apply Forall_app; split;
         [apply Forall_GET_weaken with (2 := E3); auto|constructor]).
  - intros v E. injection E as <-. right.
    apply str_eq_true in Fin. now subst.
  - intros v E. injection E as <-. now left.
Qed.

End Frame.

(** ** Runs of [_execute] *)

Lemma reports_dict (r : response) (info status : value) :
  reports r info status -> info <> VNone.
Proof. intros (_ & _ & G) ->. discriminate G. Qed.

Lemma keeps_polling_intro (r : response) :
  status_code r <> 200 \/
  (exists info status, reports r info status /\ pending status = true) ->
  keeps_polling r = true.
Proof.
  unfold keeps_polling. intros [E | (info & status & (E & J & G) & P)].
  - destruct (Z.eqb_spec (status_code r) 200); [contradiction|reflexivity].
  - rewrite E, J, G. exact P.
Qed.

(** After an accepted submission, [n] poll answers that keep the loop going
    and then an answer reporting a status outside {Running, Queued}:
    [_execute] returns after [n + 1] polls, with the payload if that status
    is "Finished" and with [None] otherwise. *)
Lemma execute_settles {T} (send : request -> T -> response * T)
    (c : DBRXCluster) (command : string) (t0 : T) (tr : list event)
    (id : value) (n : nat) (info final : value) (fuel : nat) :
  is_None (_context c) = false ->
  0 <= polling_int_sec c <= sleep_max ->
  accepts send (execute_request c command) t0 id ->
  (forall k, (k < n)%nat ->
     keeps_polling (answer send (status_request c command id) k
                      (snd (send (execute_request c command) t0))) = true) ->
  reports (answer send (status_request c command id) n
             (snd (send (execute_request c command) t0))) info final ->
  pending final = false ->
  (n < fuel)%nat ->
  exists tr',
    _execute send fuel command (mkMachine c t0 tr)
    = (Ret (if str_eq final "Finished" then info else VNone),
       mkMachine c
         (after send (status_request c command id) (S n)
            (snd (send (execute_request c command) t0)))
         (tr ++ tr')) /\
    requests_of tr'
    = execute_request c command :: repeat (status_request c command id) (S n) /\
    sleeps_of tr' = repeat (polling_int_sec c) (S n).
Proof.
  intros Ctx Int Acc K R F L.
  rewrite (execute_accepted T send c command Ctx t0 id Acc).
  edestruct (poll_loop_settles T send id (status_body c command id) c Int
               n info final fuel (VStr "Running") None)
    as (tr' & E & Rq & Sl); [reflexivity|exact K|exact R|exact F|exact L|].
  unfold status_request in E. rewrite E. cbn [self net trace].
  eexists. split; [|split].
  - destruct (str_eq final "Finished"); simpl;
      rewrite <- ?app_assoc; reflexivity.
  - rewrite !requests_of_app, complaint_requests. simpl.
    unfold status_request in Rq |- *. rewrite Rq, app_nil_r. reflexivity.
  - rewrite !sleeps_of_app. unfold command_complaint.
    destruct (command =? "")%string; simpl; rewrite Sl; simpl;
      now rewrite app_nil_r.
Qed.

(** C5. After a successful submission, when the polls reach a terminal
    status (one outside {Running, Queued}), [_execute] returns the full
    status payload if that status is "Finished" and [None] for any other, in
    both cases without raising; so it returns the payload if and only if the
    terminal status is exactly "Finished". *)
Theorem execute_returns_payload_iff_finished
    {T} (send : request -> T -> response * T)
    (c : DBRXCluster) (command : string) (t0 : T) (tr : list event)
    (id : value) (n : nat) (info final : value) (fuel : nat) :
  is_None (_context c) = false ->
  0 <= polling_int_sec c <= sleep_max ->
  accepts send (execute_request c command) t0 id ->
  (forall k, (k < n)%nat ->
     keeps_polling (answer send (status_request c command id) k
                      (snd (send (execute_request c command) t0))) = true) ->
  reports (answer send (status_request c command id) n
             (snd (send (execute_request c command) t0))) info final ->
  pending final = false ->
  (n < fuel)%nat ->
  (final = VStr "Finished" ->
   fst (_execute send fuel command (mkMachine c t0 tr)) = Ret info) /\
  (final <> VStr "Finished" ->
   fst (_execute send fuel command (mkMachine c t0 tr)) = Ret VNone) /\
  (fst (_execute send fuel command (mkMachine c t0 tr)) = Ret info <->
   final = VStr "Finished").
Proof.
  intros Ctx Int Acc K R F L.
  destruct (execute_settles send c command t0 tr id n info final fuel
              Ctx Int Acc K R F L) as (tr' & E & _).
  rewrite E. simpl.
  destruct (str_eq final "Finished") eqn:Fin.
  - apply str_eq_true in Fin. subst final.
    split; [reflexivity|]. split; [congruence|]. split; reflexivity.
  - assert (final <> VStr "Finished") as Ne.
    { intros ->. simpl in Fin. discriminate Fin. }
    split; [contradiction|]. split; [reflexivity|]. split.
    + intros H. injection H as H. symmetry in H.
      now apply reports_dict in R.
    + contradiction.
Qed.

Lemma execute_returns_payload_iff_finished_witness :
  fst (_execute play 2 "1/0"
         (boot (demo_client (VStr "ctx-1") (Some false))
            [created (VStr "run-7"); running;
             status_answer "Failed" (VStr "error") (VStr "ZeroDivisionError")]))
  = Ret VNone /\
  fst (_execute play 3 "print(6 * 7)"
         (boot (demo_client (VStr "ctx-1") (Some false))
            [created (VStr "run-7"); unavailable; queued;
             status_answer "Finished" (VStr "text") (VStr "42")]))
  = Ret (status_info "Finished" (VStr "text") (VStr "42")).
Proof.
  split.
  - refine (proj1 (proj2
      (execute_returns_payload_iff_finished play
         (demo_client (VStr "ctx-1") (Some false)) "1/0"
         [created (VStr "run-7"); running;
          status_answer "Failed" (VStr "error") (VStr "ZeroDivisionError")]
         [] (VStr "run-7") 1
         (status_info "Failed" (VStr "error") (VStr "ZeroDivisionError"))
         (VStr "Failed") 2 _ _ _ _ _ _ _)) _).
    + reflexivity.
    + unfold sleep_max. simpl. lia.
    + exists (VDict [("id", VStr "run-7")]). repeat split.
    + intros k Hk. assert (k = 0%nat) as -> by lia. reflexivity.
    + repeat split.
    + reflexivity.
    + lia.
    + discriminate.
  - refine (proj1
      (execute_returns_payload_iff_finished play
         (demo_client (VStr "ctx-1") (Some false)) "print(6 * 7)"
         [created (VStr "run-7"); unavailable; queued;
          status_answer "Finished" (VStr "text") (VStr "42")]
         [] (VStr "run-7") 2
         (status_info "Finished" (VStr "text") (VStr "42"))
         (VStr "Finished") 3 _ _ _ _ _ _ _) _).
    + reflexivity.
    + unfold sleep_max. simpl. lia.
    + exists (VDict [("id", VStr "run-7")]). repeat split.
    + intros k Hk.
      assert (k = 0%nat \/ k = 1%nat) as [-> | ->] by lia; reflexivity.
    + repeat split.
    + reflexivity.
    + lia.
    + reflexivity.
Defined.

(** C1. Against a service whose status endpoint reports "Queued" on the
    first two polls and then "Finished" with [results.data] equal to "42",
    [_execute] performs exactly three status polls, sleeps the configured
    polling interval before each of them, and returns the full status
    payload, which holds "42". *)
Theorem execute_polls_three_times
    {T} (send : request -> T -> response * T)
    (c : DBRXCluster) (command : string) (t0 : T) (tr : list event)
    (id i0 i1 info : value) (fuel : nat) :
  is_None (_context c) = false ->
  0 <= polling_int_sec c <= sleep_max ->
  accepts send (execute_request c command) t0 id ->
  reports (answer send (status_request c command id) 0
             (snd (send (execute_request c command) t0))) i0 (VStr "Queued") ->
  reports (answer send (status_request c command id) 1
             (snd (send (execute_request c command) t0))) i1 (VStr "Queued") ->
  reports (answer send (status_request c command id) 2
             (snd (send (execute_request c command) t0))) info (VStr "Finished") ->
  results_field info "data" = Ret (VStr "42") ->
  (3 <= fuel)%nat ->
  _execute send fuel command (mkMachine c t0 tr)
  = (Ret info,
     mkMachine c
       (after send (status_request c command id) 3
          (snd (send (execute_request c command) t0)))
       (tr ++ command_complaint command ++
        [Http (execute_request c command);
         Log INFO (MsgSubmitted id);
         Log INFO (MsgState id (VStr "Running"));
         Sleep (polling_int_sec c);
         Http (status_request c command id);
         Log INFO (MsgState id (VStr "Queued"));
         Sleep (polling_int_sec c);
         Http (status_request c command id);
         Log INFO (MsgState id (VStr "Queued"));
         Sleep (polling_int_sec c);
         Http (status_request c command id);
         Log INFO (MsgCompleted id (VStr "Finished"))])) /\
  results_field info "data" = Ret (VStr "42").
Proof.
  intros Ctx Int Acc R0 R1 R2 D L. split; [|exact D].
  destruct fuel as [|[|[|fuel]]]; try lia.
  rewrite (execute_accepted T send c command Ctx t0 id Acc).
  unfold status_request, answer in *. simpl in R0, R1, R2.
  rewrite (poll_loop_report T send id _ c Int _ (VStr "Running") _ _ _ _ _
             eq_refl R0).
  rewrite (poll_loop_report T send id _ c Int _ (VStr "Queued") _ _ _ _ _
             eq_refl R1).
  rewrite (poll_loop_report T send id _ c Int _ (VStr "Queued") _ _ _ _ _
             eq_refl R2).
  rewrite poll_loop_exit by reflexivity.
  cbn [self net trace str_eq String.eqb Ascii.eqb Bool.eqb load_local].
  rewrite <- !app_assoc. reflexivity.
Qed.

Lemma execute_polls_three_times_witness :
  _execute play 3 "print(6 * 7)"
    (boot (demo_client (VStr "ctx-1") (Some false))
       [created (VStr "run-7"); queued; queued;
        status_answer "Finished" (VStr "text") (VStr "42")])
  = (Ret (status_info "Finished" (VStr "text") (VStr "42")),
     mkMachine (demo_client (VStr "ctx-1") (Some false)) []
       [Http (execute_request (demo_client (VStr "ctx-1") (Some false))
                "print(6 * 7)");
        Log INFO (MsgSubmitted (VStr "run-7"));
        Log INFO (MsgState (VStr "run-7") (VStr "Running"));
        Sleep 1;
        Http (status_request (demo_client (VStr "ctx-1") (Some false))
                "print(6 * 7)" (VStr "run-7"));
        Log INFO (MsgState (VStr "run-7") (VStr "Queued"));
        Sleep 1;
        Http (status_request (demo_client (VStr "ctx-1") (Some false))
                "print(6 * 7)" (VStr "run-7"));
        Log INFO (MsgState (VStr "run-7") (VStr "Queued"));
        Sleep 1;
        Http (status_request (demo_client (VStr "ctx-1") (Some false))
                "print(6 * 7)" (VStr "run-7"));
        Log INFO (MsgCompleted (VStr "run-7") (VStr "Finished"))]).
Proof.
  refine (proj1
    (execute_polls_three_times play
       (demo_client (VStr "ctx-1") (Some false)) "print(6 * 7)"
       [created (VStr "run-7"); queued; queued;
        status_answer "Finished" (VStr "text") (VStr "42")]
       [] (VStr "run-7")
       (VDict [("id", VStr "run-7"); ("status", VStr "Queued")])
       (VDict [("id", VStr "run-7"); ("status", VStr "Queued")])
       (status_info "Finished" (VStr "text") (VStr "42"))
       3 _ _ _ _ _ _ _ _)).
  - reflexivity.
  - unfold sleep_max. simpl. lia.
  - exists (VDict [("id", VStr "run-7")]). repeat split.
  - repeat split.
  - repeat split.
  - repeat split.
  - reflexivity.
  - lia.
Defined.

(** C2. A submission answered with a status other than 200 is logged as an
    error, and the next statement of [_execute], the test of [run_id], raises
    [UnboundLocalError]: here on a 500 answer, after which no poll is sent,
    whatever the fuel. *)
Theorem execute_raises_after_failed_submission (fuel : nat) :
  _execute play fuel "print(6 * 7)"
    (boot (demo_client (VStr "ctx-1") (Some false))
       [mkResponse 500 (Garbled "Internal Server Error"); queued;
        status_answer "Finished" (VStr "text") (VStr "42")])
  = (Raise (UnboundLocalError "run_id"),
     mkMachine (demo_client (VStr "ctx-1") (Some false))
       [queued; status_answer "Finished" (VStr "text") (VStr "42")]
       [Http (execute_request (demo_client (VStr "ctx-1") (Some false))
                "print(6 * 7)");
        Log ERROR (MsgErrExecute (Garbled "Internal Server Error"))]).
Proof.
  apply (execute_rejected script play
           (demo_client (VStr "ctx-1") (Some false)) "print(6 * 7)"
           eq_refl fuel).
  discriminate.
Qed.

(** ** The poll loop has no bound *)

Lemma pending_iff (status : value) :
  pending status = true <-> status = VStr "Running" \/ status = VStr "Queued".
Proof.
  unfold pending. rewrite orb_true_iff. split.
  - intros [H|H]; apply str_eq_true in H; auto.
  - intros [->| ->]; [left|right]; reflexivity.
Qed.

(** C9. The poll loop of [_execute] has no timeout, deadline or bound on its
    attempts.  It is over exactly when the status is outside {Running,
    Queued}; for every [n], after [n] answers that keep it polling it is
    still polling, and an answer with a terminal status ends it at poll
    [n + 1]; against a service that reports Queued or Running for ever, and
    against one that answers every poll with a status code other than 200
    (so that the stale status stays), it uses up any amount of fuel, having
    polled once per unit of fuel: it never terminates. *)
Theorem poll_loop_unbounded
    {T} (send : request -> T -> response * T)
    (c : DBRXCluster) (run_id : value) (body : dict) :
  0 <= polling_int_sec c <= sleep_max ->
  (forall fuel status command_info m,
      pending status = false ->
      poll_loop send fuel run_id body status command_info m
      = (Ret (status, command_info), m)) /\
  (forall fuel status command_info m final info' m',
      poll_loop send fuel run_id body status command_info m
      = (Ret (final, info'), m') ->
      final <> VStr "Running" /\ final <> VStr "Queued") /\
  (forall n fuel status command_info t tr info final,
      status = VStr "Running" \/ status = VStr "Queued" ->
      (forall k, (k < n)%nat ->
         keeps_polling (answer send (poll_request c body) k t) = true) ->
      reports (answer send (poll_request c body) n t) info final ->
      pending final = false ->
      (n < fuel)%nat ->
      exists tr',
        poll_loop send fuel run_id body status command_info (mkMachine c t tr)
        = (Ret (final, Some info),
           mkMachine c (after send (poll_request c body) (S n) t) (tr ++ tr')) /\
        requests_of tr' = repeat (poll_request c body) (S n)) /\
  (forall status command_info t tr,
      status = VStr "Running" \/ status = VStr "Queued" ->
      (forall k, exists info reported,
          reports (answer send (poll_request c body) k t) info reported /\
          (reported = VStr "Running" \/ reported = VStr "Queued")) ->
      forall fuel, exists tr',
        poll_loop send fuel run_id body status command_info (mkMachine c t tr)
        = (OutOfFuel,
           mkMachine c (after send (poll_request c body) fuel t) (tr ++ tr')) /\
        requests_of tr' = repeat (poll_request c body) fuel) /\
  (forall status command_info t tr,
      status = VStr "Running" \/ status = VStr "Queued" ->
      (forall k, status_code (answer send (poll_request c body) k t) <> 200) ->
      forall fuel, exists tr',
        poll_loop send fuel run_id body status command_info (mkMachine c t tr)
        = (OutOfFuel,
           mkMachine c (after send (poll_request c body) fuel t) (tr ++ tr')) /\
        requests_of tr' = repeat (poll_request c body) fuel).
Proof.
  intros Int. split; [|split; [|split; [|split]]].
  - intros. now apply poll_loop_exit.
  - intros fuel status command_info m final info' m' E.
    destruct (poll_loop_frame T send run_id body fuel status command_info m)
      as (tr' & _ & _ & _ & H).
    rewrite E in H. destruct (H final info' eq_refl) as [F _].
    split; intros ->; discriminate F.
  - intros n fuel status command_info t tr info final P K R F L.
    apply pending_iff in P.
    destruct (poll_loop_settles T send run_id body c Int n info final
                fuel status command_info t tr P K R F L)
      as (tr' & E & Rq & _).
    exists tr'. split; assumption.
  - intros status command_info t tr P K fuel.
    apply pending_iff in P.
    apply (poll_loop_runs_on T send run_id body c Int); [exact P|].
    intros k. apply keeps_polling_intro. right.
    destruct (K k) as (info & reported & R & Q).
    exists info, reported. split; [exact R|]. now apply pending_iff.
  - intros status command_info t tr P K fuel.
    apply pending_iff in P.
    apply (poll_loop_runs_on T send run_id body c Int); [exact P|].
    intros k. apply keeps_polling_intro. left. apply K.
Qed.

Lemma poll_loop_unbounded_witness :
  fst (poll_loop never_scheduled 25 (VStr "run-7")
         (status_body (demo_client (VStr "ctx-1") None) "while True: pass"
            (VStr "run-7"))
         (VStr "Running") None
         (boot (demo_client (VStr "ctx-1") None) tt))
  = OutOfFuel /\
  fst (poll_loop status_down 25 (VStr "run-7")
         (status_body (demo_client (VStr "ctx-1") None) "while True: pass"
            (VStr "run-7"))
         (VStr "Running") None
         (boot (demo_client (VStr "ctx-1") None) tt))
  = OutOfFuel.
Proof.
  split.
  - destruct (proj1 (proj2 (proj2 (proj2
      (poll_loop_unbounded never_scheduled
         (demo_client (VStr "ctx-1") None) (VStr "run-7")
         (status_body (demo_client (VStr "ctx-1") None) "while True: pass"
            (VStr "run-7"))
         ltac:(unfold sleep_max; simpl; lia)))))
      (VStr "Running") None tt [] (or_introl eq_refl)
      (fun k => ex_intro _ (VDict [("id", VStr "run-7"); ("status", VStr "Queued")])
         (ex_intro _ (VStr "Queued")
            (conj (conj eq_refl (conj eq_refl eq_refl)) (or_intror eq_refl))))
      25%nat) as (tr' & E & _).
    unfold boot. rewrite E. reflexivity.
  - destruct (proj2 (proj2 (proj2 (proj2
      (poll_loop_unbounded status_down
         (demo_client (VStr "ctx-1") None) (VStr "run-7")
         (status_body (demo_client (VStr "ctx-1") None) "while True: pass"
            (VStr "run-7"))
         ltac:(unfold sleep_max; simpl; lia)))))
      (VStr "Running") None tt [] (or_introl eq_refl)
      (fun k => ltac:(discriminate))
      25%nat) as (tr' & E & _).
    unfold boot. rewrite E. reflexivity.
Defined.

(** The loop inside [_execute]: once the submission is accepted, a service
    whose every answer keeps the loop polling keeps [_execute] from ever
    returning or raising. *)
Lemma execute_never_returns {T} (send : request -> T -> response * T)
    (c : DBRXCluster) (command : string) (t0 : T) (tr : list event)
    (id : value) :
  is_None (_context c) = false ->
  0 <= polling_int_sec c <= sleep_max ->
  accepts send (execute_request c command) t0 id ->
  (forall k,
     keeps_polling (answer send (status_request c command id) k
                      (snd (send (execute_request c command) t0))) = true) ->
  forall fuel,
    fst (_execute send fuel command (mkMachine c t0 tr)) = OutOfFuel.
Proof.
  intros Ctx Int Acc K fuel.
  rewrite (execute_accepted T send c command Ctx t0 id Acc).
  edestruct (poll_loop_runs_on T send id (status_body c command id) c Int
               fuel (VStr "Running") None)
    as (tr' & E & _); [reflexivity|exact K|].
  rewrite E. reflexivity.
Qed.

(** ** [execute_R] *)

(** C4. [execute_R] needs an active context and an R-interop flag resolved
    to true.  Without a context it logs the problem and raises
    [ContextNotSetException]; with a context but a flag that is false or
    unresolved it logs the problem and returns [False], without raising and
    without any request; with both it is [_execute] on the wrapped code. *)
Theorem execute_R_requirements
    {T} (send : request -> T -> response * T)
    (fuel : nat) (r_code : string) (c : DBRXCluster) (t : T) (tr : list event) :
  (is_None (_context c) = true ->
   execute_R send fuel r_code (mkMachine c t tr)
   = (Raise ContextNotSetException,
      mkMachine c t (tr ++ [Log ERROR MsgNoContext]))) /\
  (is_None (_context c) = false -> rpy2 c <> Some true ->
   execute_R send fuel r_code (mkMachine c t tr)
   = (Ret (VBool false), mkMachine c t (tr ++ [Log ERROR MsgNoRpy2]))) /\
  (is_None (_context c) = false -> rpy2 c = Some true ->
   execute_R send fuel r_code (mkMachine c t tr)
   = _execute send fuel (r_wrapper r_code) (mkMachine c t tr)).
Proof.
  unfold execute_R, bind, get_self, log, emit, raise, lift, ret. simpl.
  split; [|split].
  - intros ->. reflexivity.
  - intros -> F. destruct (rpy2 c) as [[|]|]; try reflexivity. congruence.
  - intros -> ->. reflexivity.
Qed.

Lemma execute_R_requirements_witness :
  execute_R play 1 "sqrt(2)" (boot (demo_client VNone (Some true)) [])
  = (Raise ContextNotSetException,
     mkMachine (demo_client VNone (Some true)) [] [Log ERROR MsgNoContext]) /\
  execute_R play 1 "sqrt(2)" (boot (demo_client (VStr "ctx-1") None) [])
  = (Ret (VBool false),
     mkMachine (demo_client (VStr "ctx-1") None) [] [Log ERROR MsgNoRpy2]) /\
  execute_R play 1 "sqrt(2)" (boot (demo_client (VStr "ctx-1") (Some false)) [])
  = (Ret (VBool false),
     mkMachine (demo_client (VStr "ctx-1") (Some false)) []
       [Log ERROR MsgNoRpy2]).
Proof.
  split; [|split].
  - apply (proj1 (execute_R_requirements play 1 "sqrt(2)"
                    (demo_client VNone (Some true)) [] [])).
    reflexivity.
  - apply (proj1 (proj2 (execute_R_requirements play 1 "sqrt(2)"
                           (demo_client (VStr "ctx-1") None) [] []))).
    + reflexivity.
    + discriminate.
  - apply (proj1 (proj2 (execute_R_requirements play 1 "sqrt(2)"
                           (demo_client (VStr "ctx-1") (Some false)) [] []))).
    + reflexivity.
    + discriminate.
Defined.

(** Without a context [execute_R] does not return [False]: it raises, even
    when the R-interop flag is resolved to true. *)
Lemma execute_R_without_context_raises :
  fst (execute_R play 1 "sqrt(2)" (boot (demo_client VNone (Some false)) []))
  = Raise ContextNotSetException /\
  fst (execute_R play 1 "sqrt(2)" (boot (demo_client VNone (Some false)) []))
  <> Ret (VBool false).
Proof. split; [reflexivity|discriminate]. Qed.

(** ** [create_context] *)



(** C6. A context that is set does not always make [create_context] a
    no-op: line 87 tests the truth value of the identifier where the other
    methods test [is None].  The service answers the first [create_context]
    with an empty identifier: the call returns true and the identifier is
    stored (it is not [None], so [_execute] would accept it).  The second
    [create_context] then sends a second request, returns true and replaces
    the stored identifier. *)
Lemma create_context_twice_on_empty_id :
  let m0 := boot (demo_client VNone (Some false))
              [created (VStr ""); created (VStr "ctx-2")] in
  let m1 := snd (create_context play 1 "first" m0) in
  let m2 := snd (create_context play 1 "second" m1) in
  fst (create_context play 1 "first" m0) = Ret true /\
  _context (self m1) = VStr "" /\
  is_None (_context (self m1)) = false /\
  fst (create_context play 1 "second" m1) = Ret true /\
  List.length (requests_of (trace m2)) = 2%nat /\
  _context (self m2) = VStr "ctx-2".
Proof. repeat split. Qed.

(** ** The presence probe *)

(** [_execute] leaves the client as it is. *)
Lemma execute_self {T} (send : request -> T -> response * T)
    fuel command (m : machine T) o m' :
  _execute send fuel command m = (o, m') -> self m' = self m.
Proof.
  intros E.
  destruct (execute_frame T send fuel command m) as (tr' & S & _).
  rewrite E in S. exact S.
Qed.

(** What [results_field] finds is inside a non-empty dictionary. *)
Lemma results_field_truthy (res : value) (key : string) (v : value) :
  results_field res key = Ret v -> truthy res = true.
Proof.
  unfold results_field, getitem.
  destruct res as [| | | | |d]; try discriminate.
  destruct d; [discriminate|reflexivity].
Qed.

(** C7. The Python presence probe classifies what [_execute] returns.  A
    result of type "text" whose data is "Success" gives true; one whose data
    is "Failure" gives false; one whose data is any other text is reported
    as unparseable and the probe raises; a result of type "error" is
    reported and the probe raises; and when [_execute] returns [None] the
    missing response is reported and the probe raises. *)
Theorem python_probe_classifies
    {T} (send : request -> T -> response * T)
    (fuel : nat) (package : string) (c : DBRXCluster) (t : T)
    (tr : list event) (res : value) (m' : machine T) :
  _execute send fuel (probe_code package)
    (mkMachine c t (tr ++ [Log INFO (MsgChecking package (_context c))]))
  = (Ret res, m') ->
  (results_field res "resultType" = Ret (VStr "text") ->
   results_field res "data" = Ret (VStr "Success") ->
   _python_package_installed send fuel package (mkMachine c t tr)
   = (Ret true,
      mkMachine c (net m')
        (trace m' ++ [Log INFO (MsgInstalled package (_context c))]))) /\
  (results_field res "resultType" = Ret (VStr "text") ->
   results_field res "data" = Ret (VStr "Failure") ->
   _python_package_installed send fuel package (mkMachine c t tr)
   = (Ret false,
      mkMachine c (net m')
        (trace m' ++ [Log INFO (MsgNotInstalled package (_context c))]))) /\
  (forall other,
      results_field res "resultType" = Ret (VStr "text") ->
      results_field res "data" = Ret (VStr other) ->
      other <> "Success" -> other <> "Failure" ->
      _python_package_installed send fuel package (mkMachine c t tr)
      = (Raise RuntimeError,
         mkMachine c (net m') (trace m' ++ [Log WARNING (MsgCantParse res)]))) /\
  (results_field res "resultType" = Ret (VStr "error") ->
   _python_package_installed send fuel package (mkMachine c t tr)
   = (Raise RuntimeError,
      mkMachine c (net m')
        (trace m' ++ [Log INFO (MsgCantCheck package (_context c));
                      Log INFO (MsgResult res)]))) /\
  (res = VNone ->
   _python_package_installed send fuel package (mkMachine c t tr)
   = (Raise RuntimeError,
      mkMachine c (net m') (trace m' ++ [Log WARNING MsgNoResponse]))).
Proof.
  intros E. pose proof (execute_self send _ _ _ _ _ E) as S. simpl in S.
  unfold _python_package_installed, bind, get_self, log, emit. simpl.
  rewrite E. unfold classify, text_is, bind, get_self, log, emit, lift,
    raise, ret.
  destruct m' as [c' t' tr']. simpl in S. subst c'. simpl.
  split; [|split; [|split; [|split]]].
  - intros Ty D. rewrite (results_field_truthy _ _ _ Ty), Ty. simpl.
    rewrite D. reflexivity.
  - intros Ty D. rewrite (results_field_truthy _ _ _ Ty), Ty. simpl.
    rewrite D. reflexivity.
  - intros other Ty D N1 N2.
    rewrite (results_field_truthy _ _ _ Ty), Ty. simpl. rewrite D. simpl.
    apply String.eqb_neq in N1, N2. rewrite N1, N2. reflexivity.
  - intros Ty. rewrite (results_field_truthy _ _ _ Ty), Ty. simpl.
    rewrite <- app_assoc. reflexivity.
  - intros ->. reflexivity.
Qed.

Lemma python_probe_classifies_witness :
  _python_package_installed play 1 "rpy2"
    (boot (demo_client (VStr "ctx-1") None)
       [created (VStr "run-7");
        status_answer "Finished" (VStr "text") (VStr "Success")])
  = (Ret true,
     mkMachine (demo_client (VStr "ctx-1") None) []
       [Log INFO (MsgChecking "rpy2" (VStr "ctx-1"));
        Http (execute_request (demo_client (VStr "ctx-1") None)
                (probe_code "rpy2"));
        Log INFO (MsgSubmitted (VStr "run-7"));
        Log INFO (MsgState (VStr "run-7") (VStr "Running"));
        Sleep 1;
        Http (status_request (demo_client (VStr "ctx-1") None)
                (probe_code "rpy2") (VStr "run-7"));
        Log INFO (MsgCompleted (VStr "run-7") (VStr "Finished"));
        Log INFO (MsgInstalled "rpy2" (VStr "ctx-1"))]).
Proof.
  apply (proj1 (python_probe_classifies play 1 "rpy2"
                  (demo_client (VStr "ctx-1") None)
                  [created (VStr "run-7");
                   status_answer "Finished" (VStr "text") (VStr "Success")]
                  [] (status_info "Finished" (VStr "text") (VStr "Success"))
                  (mkMachine (demo_client (VStr "ctx-1") None) []
                     [Log INFO (MsgChecking "rpy2" (VStr "ctx-1"));
                      Http (execute_request (demo_client (VStr "ctx-1") None)
                              (probe_code "rpy2"));
                      Log INFO (MsgSubmitted (VStr "run-7"));
                      Log INFO (MsgState (VStr "run-7") (VStr "Running"));
                      Sleep 1;
                      Http (status_request (demo_client (VStr "ctx-1") None)
                              (probe_code "rpy2") (VStr "run-7"));
                      Log INFO (MsgCompleted (VStr "run-7") (VStr "Finished"))])
                  eq_refl)); reflexivity.
Defined.

Example python_probe_failure :
  fst (_python_package_installed play 1 "rpy2"
         (boot (demo_client (VStr "ctx-1") None)
            [created (VStr "run-7");
             status_answer "Finished" (VStr "text") (VStr "Failure")]))
  = Ret false.
Proof. reflexivity. Qed.

Example python_probe_other_text :
  fst (_python_package_installed play 1 "rpy2"
         (boot (demo_client (VStr "ctx-1") None)
            [created (VStr "run-7");
             status_answer "Finished" (VStr "text") (VStr "Succes")]))
  = Raise RuntimeError.
Proof. reflexivity. Qed.

Example python_probe_error_result :
  fst (_python_package_installed play 1 "rpy2"
         (boot (demo_client (VStr "ctx-1") None)
            [created (VStr "run-7");
             status_answer "Finished" (VStr "error") (VStr "SyntaxError")]))
  = Raise RuntimeError.
Proof. reflexivity. Qed.

Example python_probe_no_result :
  fst (_python_package_installed play 1 "rpy2"
         (boot (demo_client (VStr "ctx-1") None)
            [created (VStr "run-7");
             status_answer "Cancelled" VNone VNone]))
  = Raise RuntimeError.
Proof. reflexivity. Qed.

(** [classify] only logs. *)
Lemma classify_frame {T} (package : string) (res : value) (m : machine T) :
  exists logs,
    snd (classify package res m)
    = mkMachine (self m) (net m) (trace m ++ logs) /\
    requests_of logs = [].
Proof.
  destruct m as [c t tr].
  unfold classify, text_is, bind, get_self, log, emit, lift, raise, ret.
  simpl.
  destruct (truthy res); simpl; [|eexists; split; reflexivity].
  destruct (results_field res "resultType") as [rt| |]; simpl;
    try (exists []; rewrite app_nil_r; split; reflexivity).
  destruct (str_eq rt "text"); simpl.
  - destruct (results_field res "data") as [d| |]; simpl;
      try (exists []; rewrite app_nil_r; split; reflexivity).
    destruct (str_eq d "Success"); simpl; [eexists; split; reflexivity|].
    destruct (str_eq d "Failure"); simpl; [eexists; split; reflexivity|].
    destruct (str_eq rt "error"); simpl; eexists;
      rewrite <- ?app_assoc; split; reflexivity.
  - destruct (str_eq rt "error"); simpl; eexists;
      rewrite <- ?app_assoc; split; reflexivity.
Qed.

(** The probe and the install command are different commands, whatever the
    package. *)
Lemma probe_is_not_pip (package : string) (c : DBRXCluster) :
  submits (pip_code package) (execute_request c (probe_code package)) = false.
Proof. reflexivity. Qed.

Lemma GET_submits_nothing (command : string) (q : request) :
  meth q = GET -> submits command q = false.
Proof. unfold submits. now intros ->. Qed.

(** The presence probe only adds to the trace, and none of its requests
    submits the install command. *)
Lemma python_probe_frame {T} (send : request -> T -> response * T)
    (fuel : nat) (package : string) (m : machine T) :
  exists tr',
    trace (snd (_python_package_installed send fuel package m))
    = trace m ++ tr' /\
    Forall (fun q => submits (pip_code package) q = false) (requests_of tr').
Proof.
  destruct m as [c t tr].
  unfold _python_package_installed, bind, get_self, log, emit. simpl.
  destruct (execute_frame T send fuel (probe_code package)
              (mkMachine c t (tr ++ [Log INFO (MsgChecking package (_context c))])))
    as (tr1 & S & Tr & Rq & _).
  assert (Rq' : Forall (fun q => submits (pip_code package) q = false)
                  (requests_of tr1)).
  { eapply Forall_impl; [|exact Rq]. simpl. intros q [G| ->].
    - now apply GET_submits_nothing.
    - apply probe_is_not_pip. }
  destruct (_execute send fuel (probe_code package) _) as [[res| |] m1];
    simpl in *.
  - destruct (classify_frame package res m1) as (logs & Ec & Rl).
    destruct (classify package res m1) as [o m2]. simpl in Ec. subst m2.
    simpl. rewrite Tr, <- !app_assoc. eexists. split; [reflexivity|].
    simpl. rewrite requests_of_app, Rl, app_nil_r. exact Rq'.
  - rewrite Tr, <- !app_assoc. eexists. split; [reflexivity|exact Rq'].
  - rewrite Tr, <- !app_assoc. eexists. split; [reflexivity|exact Rq'].
Qed.

(** ** [install_py_package] *)

(** C8. When the presence check reports the package installed,
    [install_py_package] returns true at once: it ends in the state the
    check left, and no request it sent submits the install command. *)
Theorem install_py_package_idempotent
    {T} (send : request -> T -> response * T)
    (fuel : nat) (package : string) (verbose : bool)
    (c : DBRXCluster) (t : T) (tr : list event) (m' : machine T) :
  _python_package_installed send fuel package
    (mkMachine c t (tr ++ [Log INFO (MsgInstalling package (_context c))]))
  = (Ret true, m') ->
  install_py_package send fuel package verbose (mkMachine c t tr)
  = (Ret true, m') /\
  exists tr',
    trace m' = tr ++ tr' /\
    Forall (fun q => submits (pip_code package) q = false) (requests_of tr').
Proof.
  intros E. split.
  - unfold install_py_package, bind, get_self, log, emit, ret. simpl.
    rewrite E. reflexivity.
  - destruct (python_probe_frame send fuel package
                (mkMachine c t
                   (tr ++ [Log INFO (MsgInstalling package (_context c))])))
      as (tr' & Tr & Rq).
    rewrite E in Tr. simpl in Tr. rewrite Tr, <- app_assoc.
    eexists. split; [reflexivity|]. exact Rq.
Qed.

Lemma install_py_package_idempotent_witness :
  install_py_package play 1 "numpy" false
    (boot (demo_client (VStr "ctx-1") (Some false))
       [created (VStr "run-7");
        status_answer "Finished" (VStr "text") (VStr "Success")])
  = (Ret true,
     mkMachine (demo_client (VStr "ctx-1") (Some false)) []
       [Log INFO (MsgInstalling "numpy" (VStr "ctx-1"));
        Log INFO (MsgChecking "numpy" (VStr "ctx-1"));
        Http (execute_request (demo_client (VStr "ctx-1") (Some false))
                (probe_code "numpy"));
        Log INFO (MsgSubmitted (VStr "run-7"));
        Log INFO (MsgState (VStr "run-7") (VStr "Running"));
        Sleep 1;
        Http (status_request (demo_client (VStr "ctx-1") (Some false))
                (probe_code "numpy") (VStr "run-7"));
        Log INFO (MsgCompleted (VStr "run-7") (VStr "Finished"));
        Log INFO (MsgInstalled "numpy" (VStr "ctx-1"))]).
Proof.
  apply (proj1 (install_py_package_idempotent play 1 "numpy" false
                  (demo_client (VStr "ctx-1") (Some false))
                  [created (VStr "run-7");
                   status_answer "Finished" (VStr "text") (VStr "Success")]
                  [] _ eq_refl)).
Defined.

(** * Further properties *)

(** ** The shape of a run of the poll loop *)

Section PollShape.

Variable T : Type.
Variable send : request -> T -> response * T.

Variables (run_id : value) (body : dict).

(** Whatever the service answers and however the loop ends, it leaves the
    client alone, and what it did to the outside is [k] polls, all the same
    request, never more than the fuel, each after a sleep of the polling
    interval (a last sleep may have been refused). *)
Lemma poll_loop_shape :
  forall fuel status command_info c t tr,
  exists tr' k,
    snd (poll_loop send fuel run_id body status command_info (mkMachine c t tr))
    = mkMachine c (after send (poll_request c body) k t) (tr ++ tr') /\
    requests_of tr' = repeat (poll_request c body) k /\
    (k <= fuel)%nat /\
    sleeps_of tr' = repeat (polling_int_sec c) k.
Proof.
  induction fuel as [|fuel IH]; intros status command_info c t tr.
  - exists [], 0%nat. simpl. fold (pending status). rewrite app_nil_r.
    destruct (pending status); repeat split; auto.
  - simpl. fold (pending status).
    destruct (pending status).
    2:{ exists [], 0%nat. simpl. rewrite app_nil_r. repeat split; auto; lia. }
    unfold bind, log, emit, get_self, sleep, http, lift, raise. simpl.
    destruct (sleep_refusal (polling_int_sec c)).
    { exists [Log INFO (MsgState run_id status)], 0%nat. simpl.
      repeat split; auto; lia. }
    simpl. change (api_url_getter c) with (_api_url c).
    fold (poll_request c body).
    destruct (send (poll_request c body) t) as [r t'] eqn:Snd. simpl.
    assert (A1 : after send (poll_request c body) 1 t = t')
      by (simpl; now rewrite Snd).
    assert (AS : forall k, after send (poll_request c body) (S k) t
                           = after send (poll_request c body) k t')
      by (intros k; simpl; now rewrite Snd).
    destruct (status_code r =? 200).
    + destruct (text r) as [info|raw]; simpl.
      2:{ eexists _, 1%nat. rewrite A1, <- !app_assoc.
          split; [reflexivity|]. simpl. repeat split; auto; lia. }
      destruct (getitem info "status") as [status'| |]; simpl.
      2,3: eexists _, 1%nat; rewrite A1, <- !app_assoc;
           (split; [reflexivity|]); simpl; repeat split; auto; lia.
      edestruct (IH status' (Some info) c t') as (tr' & k & E & Rq & Le & Sl).
      eexists _, (S k). rewrite E, AS, <- !app_assoc.
      split; [reflexivity|]. simpl. rewrite Rq, Sl. repeat split; auto; lia.
    + cbn [self net trace].
      edestruct (IH status command_info c t') as (tr' & k & E & Rq & Le & Sl).
      eexists _, (S k). rewrite E, AS, <- !app_assoc.
      split; [reflexivity|]. simpl. rewrite Rq, Sl. repeat split; auto; lia.
Qed.

End PollShape.

(** ** The shape of a run of [_execute] *)

Lemma complaint_sleeps (command : string) :
  sleeps_of (command_complaint command) = [].
Proof. unfold command_complaint. now destruct (command =? "")%string. Qed.

Lemma complaint_effects (command : string) :
  effects_of (command_complaint command) = [].
Proof. unfold command_complaint. now destruct (command =? "")%string. Qed.

Lemma effects_of_app (a b : list event) :
  effects_of (a ++ b) = effects_of a ++ effects_of b.
Proof.
  induction a as [|e a IH]; simpl; [reflexivity|].
  destruct e; simpl; now rewrite IH.
Qed.

Lemma requests_of_effects (tr : list event) :
  requests_of (effects_of tr) = requests_of tr.
Proof.
  induction tr as [|e tr IH]; simpl; [reflexivity|].
  destruct e; simpl; now rewrite ?IH.
Qed.

Lemma sleeps_of_effects (tr : list event) :
  sleeps_of (effects_of tr) = sleeps_of tr.
Proof.
  induction tr as [|e tr IH]; simpl; [reflexivity|].
  destruct e; simpl; now rewrite ?IH.
Qed.

Lemma poll_turns_requests (d : Z) (q : request) (k : nat) :
  requests_of (poll_turns d q k) = repeat q k.
Proof. induction k as [|k IH]; simpl; [reflexivity|]. now rewrite IH. Qed.

Lemma poll_turns_sleeps (d : Z) (q : request) (k : nat) :
  sleeps_of (poll_turns d q k) = repeat d k.
Proof. induction k as [|k IH]; simpl; [reflexivity|]. now rewrite IH. Qed.

Lemma poll_turns_snoc (d : Z) (q : request) (k : nat) :
  poll_turns d q k ++ [Sleep d; Http q] = poll_turns d q (S k).
Proof. induction k as [|k IH]; simpl; [reflexivity|]. now rewrite IH. Qed.

(** Whatever the service answers and however the loop ends, what the loop
    did to the outside besides logging is [k] turns, never more than the
    fuel: in each a sleep of the polling interval and then the poll. *)
Lemma poll_loop_turns {T} (send : request -> T -> response * T)
    (run_id : value) (body : dict) :
  forall fuel status command_info c t tr,
  exists tr' k,
    snd (poll_loop send fuel run_id body status command_info (mkMachine c t tr))
    = mkMachine c (after send (poll_request c body) k t) (tr ++ tr') /\
    effects_of tr' = poll_turns (polling_int_sec c) (poll_request c body) k /\
    (k <= fuel)%nat.
Proof.
  induction fuel as [|fuel IH]; intros status command_info c t tr.
  - exists [], 0%nat. simpl. fold (pending status). rewrite app_nil_r.
    destruct (pending status); repeat split; auto.
  - simpl. fold (pending status).
    destruct (pending status).
    2:{ exists [], 0%nat. simpl. rewrite app_nil_r. repeat split; auto; lia. }
    unfold bind, log, emit, get_self, sleep, http, lift, raise. simpl.
    destruct (sleep_refusal (polling_int_sec c)).
    { exists [Log INFO (MsgState run_id status)], 0%nat. simpl.
      repeat split; auto; lia. }
    simpl. change (api_url_getter c) with (_api_url c).
    fold (poll_request c body).
    destruct (send (poll_request c body) t) as [r t'] eqn:Snd. simpl.
    assert (A1 : after send (poll_request c body) 1 t = t')
      by (simpl; now rewrite Snd).
    assert (AS : forall k, after send (poll_request c body) (S k) t
                           = after send (poll_request c body) k t')
      by (intros k; simpl; now rewrite Snd).
    destruct (status_code r =? 200).
    + destruct (text r) as [info|raw]; simpl.
      2:{ eexists _, 1%nat. rewrite A1, <- !app_assoc.
          split; [reflexivity|]. simpl. repeat split; auto; lia. }
      destruct (getitem info "status") as [status'| |]; simpl.
      2,3: eexists _, 1%nat; rewrite A1, <- !app_assoc;
           (split; [reflexivity|]); simpl; repeat split; auto; lia.
      edestruct (IH status' (Some info) c t') as (tr' & k & E & Ef & Le).
      eexists _, (S k). rewrite E, AS, <- !app_assoc.
      split; [reflexivity|]. simpl. rewrite Ef. repeat split; auto; lia.
    + cbn [self net trace].
      edestruct (IH status command_info c t') as (tr' & k & E & Ef & Le).
      eexists _, (S k). rewrite E, AS, <- !app_assoc.
      split; [reflexivity|]. simpl. rewrite Ef. repeat split; auto; lia.
Qed.

(** The effects of a run that sent its submission and then made [k]
    turns. *)
Ltac effects_after_submission id k :=
  exists id, k;
  rewrite !effects_of_app, complaint_effects;
  simpl; rewrite ?app_nil_r; repeat split; auto; try lia.

(** Whatever the service answers, however [_execute] ends and whatever the
    fuel, a run of [_execute] leaves the client as it is.  On a client with
    a context, what it does to the outside besides logging is exactly: its
    submission, and then some number of turns of the poll loop, each turn a
    sleep of the polling interval immediately followed by the status poll
    of the one run; so it sends one submission and then only polls, and every
    poll comes right after a sleep.  Without a context it does nothing but
    log.  What it returns is [None] or a payload whose status is
    "Finished". *)
Theorem execute_effects
    {T} (send : request -> T -> response * T)
    (fuel : nat) (command : string) (c : DBRXCluster) (t : T) (tr : list event) :
  exists tr',
    self (snd (_execute send fuel command (mkMachine c t tr))) = c /\
    trace (snd (_execute send fuel command (mkMachine c t tr))) = tr ++ tr' /\
    (exists id k,
        effects_of tr'
        = (if is_None (_context c) then []
           else Http (execute_request c command)
                :: poll_turns (polling_int_sec c)
                     (status_request c command id) k) /\
        requests_of tr'
        = (if is_None (_context c) then []
           else execute_request c command
                :: repeat (status_request c command id) k) /\
        (k <= fuel)%nat /\
        sleeps_of tr'
        = (if is_None (_context c) then []
           else repeat (polling_int_sec c) k)) /\
    (forall v,
        fst (_execute send fuel command (mkMachine c t tr)) = Ret v ->
        v = VNone \/ getitem v "status" = Ret (VStr "Finished")).
Proof.
  destruct (execute_frame T send fuel command (mkMachine c t tr))
    as (tr0 & _ & _ & _ & Val).
  cut (exists tr',
    self (snd (_execute send fuel command (mkMachine c t tr))) = c /\
    trace (snd (_execute send fuel command (mkMachine c t tr))) = tr ++ tr' /\
    (exists id k,
        effects_of tr'
        = (if is_None (_context c) then []
           else Http (execute_request c command)
                :: poll_turns (polling_int_sec c)
                     (status_request c command id) k) /\
        (k <= fuel)%nat)).
  { intros (tr' & A & B & id & k & Ef & Le). exists tr'.
    split; [exact A|]. split; [exact B|]. split; [|exact Val].
    exists id, k. split; [exact Ef|].
    rewrite <- (requests_of_effects tr'), <- (sleeps_of_effects tr'), Ef.
    destruct (is_None (_context c)); simpl;
      rewrite ?poll_turns_requests, ?poll_turns_sleeps; auto. }
  clear Val tr0.
  unfold _execute, bind, get_self. simpl.
  destruct (is_None (_context c)); simpl.
  { eexists. split; [reflexivity|]. split; [reflexivity|].
    exists VNone, 0%nat. repeat split; auto; lia. }
  rewrite complaint_run. simpl.
  unfold http, log, emit, lift, ret. simpl.
  destruct (send (execute_request c command) t) as [r t']. simpl.
  destruct (status_code r =? 200); simpl.
  2:{ eexists. split; [reflexivity|].
      split; [rewrite <- ?app_assoc; reflexivity|].
      effects_after_submission VNone 0%nat. }
  destruct (text r) as [reply|raw]; simpl.
  2:{ eexists. split; [reflexivity|].
      split; [rewrite <- ?app_assoc; reflexivity|].
      effects_after_submission VNone 0%nat. }
  destruct (getitem reply "id") as [id| |]; simpl.
  2,3: eexists; (split; [reflexivity|]);
       (split; [rewrite <- ?app_assoc; reflexivity|]);
       effects_after_submission VNone 0%nat.
  destruct (is_None id); simpl.
  { eexists. split; [reflexivity|].
    split; [rewrite <- ?app_assoc; reflexivity|].
    effects_after_submission VNone 0%nat. }
  match goal with
  | |- context [poll_loop send fuel id ?b ?s ?ci (mkMachine c t' ?tr0)] =>
      destruct (poll_loop_turns send id b fuel s ci c t' tr0)
        as (tr' & k & E & Ef & Le);
      destruct (poll_loop send fuel id b s ci (mkMachine c t' tr0))
        as [[[final info']| |] m1]
  end; simpl in E; subst m1; simpl.
  - destruct (str_eq final "Finished"); simpl;
      (eexists; split; [reflexivity|];
       split; [rewrite <- ?app_assoc; reflexivity|];
       exists id, k;
       rewrite !effects_of_app, complaint_effects; simpl;
       rewrite ?effects_of_app, Ef; simpl;
       rewrite ?app_nil_r; repeat split; auto).
  - eexists. split; [reflexivity|].
    split; [rewrite <- ?app_assoc; reflexivity|].
    exists id, k.
    rewrite !effects_of_app, complaint_effects; simpl. rewrite Ef.
    repeat split; auto.
  - eexists. split; [reflexivity|].
    split; [rewrite <- ?app_assoc; reflexivity|].
    exists id, k.
    rewrite !effects_of_app, complaint_effects; simpl. rewrite Ef.
    repeat split; auto.
Qed.

(** ** Running without a context *)

(** On a client without a context, every method that runs code or destroys
    the context raises [ContextNotSetException] and sends nothing: the
    service is left as it is and the trace gains log lines only. *)
Theorem no_context_no_request
    {T} (send : request -> T -> response * T)
    (fuel : nat) (text_arg : string) (verbose : bool)
    (c : DBRXCluster) (t : T) (tr : list event) :
  is_None (_context c) = true ->
  _execute send fuel text_arg (mkMachine c t tr)
  = (Raise ContextNotSetException,
     mkMachine c t (tr ++ [Log ERROR MsgNoContext])) /\
  _python_package_installed send fuel text_arg (mkMachine c t tr)
  = (Raise ContextNotSetException,
     mkMachine c t (tr ++ [Log INFO (MsgChecking text_arg (_context c));
                           Log ERROR MsgNoContext])) /\
  _r_package_installed send fuel text_arg (mkMachine c t tr)
  = (Raise ContextNotSetException,
     mkMachine c t (tr ++ [Log ERROR MsgNoContext])) /\
  install_py_package send fuel text_arg verbose (mkMachine c t tr)
  = (Raise ContextNotSetException,
     mkMachine c t (tr ++ [Log INFO (MsgInstalling text_arg (_context c));
                           Log INFO (MsgChecking text_arg (_context c));
                           Log ERROR MsgNoContext])) /\
  destroy_context send (mkMachine c t tr)
  = (Raise ContextNotSetException,
     mkMachine c t (tr ++ [Log ERROR MsgNoContextDestroy])).
Proof.
  intros N.
  unfold install_py_package, _python_package_installed, _r_package_installed,
    destroy_context, _execute, bind, get_self, log, emit, raise, lift.
  simpl. rewrite N. simpl. rewrite <- !app_assoc. simpl.
  repeat split.
Qed.

Lemma no_context_no_request_witness :
  exists c,
    __init__ "https://dbc.example/api/1.2" "T1" 1 (VStr "no") = Ret c /\
    _execute play 5 "print(6 * 7)" (boot c [created (VStr "run-7")])
    = (Raise ContextNotSetException,
       mkMachine c [created (VStr "run-7")] [Log ERROR MsgNoContext]) /\
    destroy_context play (boot c [created (VStr "run-7")])
    = (Raise ContextNotSetException,
       mkMachine c [created (VStr "run-7")] [Log ERROR MsgNoContextDestroy]).
Proof.
  eexists. split; [reflexivity|].
  split.
  - refine (proj1 (no_context_no_request play 5 "print(6 * 7)" false _
                     [created (VStr "run-7")] [] _)).
    reflexivity.
  - refine (proj2 (proj2 (proj2 (proj2
             (no_context_no_request play 5 "print(6 * 7)" false _
                [created (VStr "run-7")] [] _))))).
    reflexivity.
Defined.

(** ** Edge cases of the submission *)

(** An empty command is complained about and submitted all the same: the
    complaint is followed by the submission of the empty command. *)
Theorem execute_submits_empty_command
    {T} (send : request -> T -> response * T)
    (fuel : nat) (c : DBRXCluster) (t : T) (tr : list event) :
  is_None (_context c) = false ->
  exists rest,
    trace (snd (_execute send fuel "" (mkMachine c t tr)))
    = tr ++ [Log ERROR MsgEmptyCommand; Http (execute_request c "")] ++ rest.
Proof.
  intros N.
  unfold _execute, bind, get_self. simpl. rewrite N. simpl.
  unfold http, log, emit, lift, ret. simpl.
  destruct (send (execute_request c "") t) as [r t']. simpl.
  destruct (status_code r =? 200); simpl;
    [|eexists; rewrite <- !app_assoc; reflexivity].
  destruct (text r) as [reply|raw]; simpl;
    [|exists []; rewrite <- !app_assoc; reflexivity].
  destruct (getitem reply "id") as [id| |]; simpl;
    [|exists []; rewrite <- !app_assoc; reflexivity
     |exists []; rewrite <- !app_assoc; reflexivity].
  destruct (is_None id); simpl;
    [eexists; rewrite <- !app_assoc; reflexivity|].
  match goal with
  | |- context [poll_loop send fuel id ?b ?s ?ci (mkMachine c t' ?tr0)] =>
      destruct (poll_loop_shape T send id b fuel s ci c t' tr0)
        as (tr' & k & E & _);
      destruct (poll_loop send fuel id b s ci (mkMachine c t' tr0))
        as [[[final info']| |] m1]
  end; simpl in E; subst m1; simpl.
  - destruct (str_eq final "Finished"); simpl;
      eexists; rewrite <- !app_assoc; reflexivity.
  - eexists; rewrite <- !app_assoc; reflexivity.
  - eexists; rewrite <- !app_assoc; reflexivity.
Qed.

Lemma execute_submits_empty_command_witness :
  exists rest,
    trace (snd (_execute play 1 ""
                  (boot (demo_client (VStr "ctx-1") None)
                     [created (VStr "run-7");
                      status_answer "Finished" (VStr "text") (VStr "")])))
    = [] ++ [Log ERROR MsgEmptyCommand;
             Http (execute_request (demo_client (VStr "ctx-1") None) "")]
         ++ rest.
Proof.
  apply (execute_submits_empty_command play 1
           (demo_client (VStr "ctx-1") None)
           [created (VStr "run-7");
            status_answer "Finished" (VStr "text") (VStr "")] []).
  reflexivity.
Defined.

(** A submission answered 200 without a usable run identifier.  A text that
    is not JSON raises [JSONDecodeError]; a JSON text from which "id" cannot
    be read raises what the lookup raises ([KeyError] for an object without
    the key, [TypeError] for a text that is not an object); an "id" that is
    null is logged as the run identifier and [_execute] returns [None].  In no
    case is a poll sent. *)
Theorem execute_unusable_acknowledgement
    {T} (send : request -> T -> response * T)
    (fuel : nat) (command : string) (c : DBRXCluster) (t : T) (tr : list event) :
  is_None (_context c) = false ->
  status_code (fst (send (execute_request c command) t)) = 200 ->
  (forall raw,
      text (fst (send (execute_request c command) t)) = Garbled raw ->
      _execute send fuel command (mkMachine c t tr)
      = (Raise JSONDecodeError,
         mkMachine c (snd (send (execute_request c command) t))
           (tr ++ command_complaint command
               ++ [Http (execute_request c command)]))) /\
  (forall reply e,
      text (fst (send (execute_request c command) t)) = Json reply ->
      getitem reply "id" = Raise e ->
      _execute send fuel command (mkMachine c t tr)
      = (Raise e,
         mkMachine c (snd (send (execute_request c command) t))
           (tr ++ command_complaint command
               ++ [Http (execute_request c command)]))) /\
  (forall reply,
      text (fst (send (execute_request c command) t)) = Json reply ->
      getitem reply "id" = Ret VNone ->
      _execute send fuel command (mkMachine c t tr)
      = (Ret VNone,
         mkMachine c (snd (send (execute_request c command) t))
           (tr ++ command_complaint command
               ++ [Http (execute_request c command);
                   Log INFO (MsgSubmitted VNone)]))).
Proof.
  intros N E.
  unfold _execute, bind, get_self. simpl. rewrite N. simpl.
  rewrite complaint_run. simpl.
  unfold http, log, emit, lift, ret. simpl.
  destruct (send (execute_request c command) t) as [r t']. simpl in *.
  rewrite E. simpl.
  split; [|split].
  - intros raw ->. simpl. rewrite <- !app_assoc. reflexivity.
  - intros reply e -> G. simpl. rewrite G. rewrite <- !app_assoc. reflexivity.
  - intros reply -> G. simpl. rewrite G. simpl.
    rewrite <- !app_assoc. reflexivity.
Qed.

Lemma execute_unusable_acknowledgement_witness :
  fst (_execute play 3 "print(6 * 7)"
         (boot (demo_client (VStr "ctx-1") None)
            [mkResponse 200 (Garbled "<html>login</html>"); queued]))
  = Raise JSONDecodeError /\
  fst (_execute play 3 "print(6 * 7)"
         (boot (demo_client (VStr "ctx-1") None)
            [mkResponse 200 (Json (VDict [("error", VStr "no cluster")]));
             queued]))
  = Raise (KeyError "id") /\
  _execute play 3 "print(6 * 7)"
    (boot (demo_client (VStr "ctx-1") None) [created VNone; queued])
  = (Ret VNone,
     mkMachine (demo_client (VStr "ctx-1") None) [queued]
       [Http (execute_request (demo_client (VStr "ctx-1") None) "print(6 * 7)");
        Log INFO (MsgSubmitted VNone)]).
Proof.
  split; [|split].
  - exact (f_equal fst
      (proj1 (execute_unusable_acknowledgement play 3 "print(6 * 7)"
                (demo_client (VStr "ctx-1") None)
                [mkResponse 200 (Garbled "<html>login</html>"); queued]
                [] eq_refl eq_refl) "<html>login</html>" eq_refl)).
  - exact (f_equal fst
      (proj1 (proj2 (execute_unusable_acknowledgement play 3
                "print(6 * 7)" (demo_client (VStr "ctx-1") None)
                [mkResponse 200
                   (Json (VDict [("error", VStr "no cluster")]));
                 queued]
                [] eq_refl eq_refl))
         (VDict [("error", VStr "no cluster")]) (KeyError "id")
         eq_refl eq_refl)).
  - exact (proj2 (proj2 (execute_unusable_acknowledgement play 3
                      "print(6 * 7)" (demo_client (VStr "ctx-1") None)
                      [created VNone; queued] [] eq_refl eq_refl))
             (VDict [("id", VNone)]) eq_refl eq_refl).
Defined.

(** ** Edge cases of the poll loop *)

Section PollEdges.

Variable T : Type.
Variable send : request -> T -> response * T.

Variables (run_id : value) (body : dict) (c : DBRXCluster).

(** A turn of the loop on a refused sleep: the status is logged, nothing is
    sent. *)
Lemma poll_loop_refused_sleep fuel status command_info t tr e :
  pending status = true ->
  sleep_refusal (polling_int_sec c) = Some e ->
  poll_loop send (S fuel) run_id body status command_info (mkMachine c t tr)
  = (Raise e,
     mkMachine c t (tr ++ [Log INFO (MsgState run_id status)])).
Proof.
  unfold pending. intros P L. simpl. rewrite P.
  unfold bind, log, emit, get_self, sleep, raise, lift. simpl.
  rewrite L. reflexivity.
Qed.

Hypothesis interval_ok : 0 <= polling_int_sec c <= sleep_max.

(** A turn of the loop on a 200 answer that cannot be read. *)
Lemma poll_loop_unreadable fuel status command_info t tr e :
  pending status = true ->
  status_code (fst (send (poll_request c body) t)) = 200 ->
  (match text (fst (send (poll_request c body) t)) with
   | Garbled _ => e = JSONDecodeError
   | Json info => getitem info "status" = Raise e
   end) ->
  poll_loop send (S fuel) run_id body status command_info (mkMachine c t tr)
  = (Raise e,
     mkMachine c (snd (send (poll_request c body) t))
       (tr ++ [Log INFO (MsgState run_id status);
               Sleep (polling_int_sec c);
               Http (poll_request c body)])).
Proof.
  unfold pending. intros P E X. simpl. rewrite P.
  unfold bind, log, emit, get_self, sleep, http, lift. simpl.
  rewrite (sleep_refusal_ok _ interval_ok). simpl.
  change (api_url_getter c) with (_api_url c). fold (poll_request c body).
  destruct (send (poll_request c body) t) as [r t']. simpl in *.
  rewrite E. simpl. destruct (text r) as [info|raw]; simpl.
  - rewrite X. rewrite <- !app_assoc. reflexivity.
  - subst e. rewrite <- !app_assoc. reflexivity.
Qed.

(** [n] answers that keep the loop polling use up [n] units of fuel and
    leave the loop where it was, [n] polls and [n] sleeps later. *)
Lemma poll_loop_skip (n : nat) :
  forall fuel status command_info t tr,
    pending status = true ->
    (forall k, (k < n)%nat ->
       keeps_polling (answer send (poll_request c body) k t) = true) ->
    exists status' command_info' tr',
      pending status' = true /\
      poll_loop send (n + fuel) run_id body status command_info
        (mkMachine c t tr)
      = poll_loop send fuel run_id body status' command_info'
          (mkMachine c (after send (poll_request c body) n t) (tr ++ tr')) /\
      requests_of tr' = repeat (poll_request c body) n /\
      sleeps_of tr' = repeat (polling_int_sec c) n.
Proof.
  induction n as [|n IH]; intros fuel status command_info t tr P K.
  - exists status, command_info, []. rewrite app_nil_r. auto.
  - assert (K' : forall k, (k < n)%nat ->
              keeps_polling
                (answer send (poll_request c body) k
                   (snd (send (poll_request c body) t))) = true).
    { intros k Hk. apply (K (S k)). lia. }
    pose proof (K 0%nat ltac:(lia)) as K0. unfold answer in K0. simpl in K0.
    apply keeps_polling_inv in K0.
    change (S n + fuel)%nat with (S (n + fuel)). unfold poll_request in *.
    destruct K0 as [E | (info0 & status0 & R0 & P0)].
    + rewrite (poll_loop_stale T send run_id body c interval_ok _ _ _ _ _ P E).
      edestruct (IH fuel status command_info) as (s' & ci' & tr' & P' & E' & Rq & Sl);
        [exact P|exact K'|].
      exists s', ci'. eexists. rewrite E', <- app_assoc.
      split; [exact P'|]. split; [reflexivity|].
      simpl. now rewrite Rq, Sl.
    + rewrite (poll_loop_report T send run_id body c interval_ok
                 _ _ _ _ _ _ _ P R0).
      edestruct (IH fuel status0 (Some info0)) as (s' & ci' & tr' & P' & E' & Rq & Sl);
        [exact P0|exact K'|].
      exists s', ci'. eexists. rewrite E', <- app_assoc.
      split; [exact P'|]. split; [reflexivity|].
      simpl. now rewrite Rq, Sl.
Qed.

End PollEdges.

(** After an accepted submission and [n] answers that keep the loop polling,
    a poll answered 200 with a text that cannot be read ends [_execute] with
    an exception: [JSONDecodeError] when the text is not JSON, and what the
    lookup of "status" raises when it is ([KeyError] for an object without
    the key). *)
Theorem execute_unreadable_status
    {T} (send : request -> T -> response * T)
    (c : DBRXCluster) (command : string) (t0 : T) (tr : list event)
    (id : value) (n fuel : nat) :
  is_None (_context c) = false ->
  0 <= polling_int_sec c <= sleep_max ->
  accepts send (execute_request c command) t0 id ->
  (forall k, (k < n)%nat ->
     keeps_polling (answer send (status_request c command id) k
                      (snd (send (execute_request c command) t0))) = true) ->
  status_code (answer send (status_request c command id) n
                 (snd (send (execute_request c command) t0))) = 200 ->
  (n < fuel)%nat ->
  (forall raw,
      text (answer send (status_request c command id) n
              (snd (send (execute_request c command) t0))) = Garbled raw ->
      fst (_execute send fuel command (mkMachine c t0 tr))
      = Raise JSONDecodeError) /\
  (forall info e,
      text (answer send (status_request c command id) n
              (snd (send (execute_request c command) t0))) = Json info ->
      getitem info "status" = Raise e ->
      fst (_execute send fuel command (mkMachine c t0 tr)) = Raise e).
Proof.
  intros Ctx Int Acc K E L.
  rewrite (execute_accepted T send c command Ctx t0 id Acc).
  replace fuel with (n + S (fuel - n - 1))%nat by lia.
  edestruct (poll_loop_skip T send id (status_body c command id) c Int n
               (S (fuel - n - 1)) (VStr "Running") None)
    as (s' & ci' & tr' & P' & E' & _); [reflexivity|exact K|].
  rewrite E'. clear E'.
  split.
  - intros raw X.
    rewrite (poll_loop_unreadable T send id (status_body c command id) c Int
               _ _ _ _ _ JSONDecodeError P' E).
    + reflexivity.
    + unfold answer, status_request, poll_request in *. now rewrite X.
  - intros info e X G.
    rewrite (poll_loop_unreadable T send id (status_body c command id) c Int
               _ _ _ _ _ e P' E).
    + reflexivity.
    + unfold answer, status_request, poll_request in *. now rewrite X.
Qed.

Lemma execute_unreadable_status_witness :
  fst (_execute play 4 "print(6 * 7)"
         (boot (demo_client (VStr "ctx-1") None)
            [created (VStr "run-7"); queued; unavailable;
             mkResponse 200 (Garbled "<html>maintenance</html>")]))
  = Raise JSONDecodeError /\
  fst (_execute play 4 "print(6 * 7)"
         (boot (demo_client (VStr "ctx-1") None)
            [created (VStr "run-7"); queued;
             mkResponse 200 (Json (VDict [("error", VStr "expired")]))]))
  = Raise (KeyError "status").
Proof.
  split.
  - refine (proj1 (execute_unreadable_status play
              (demo_client (VStr "ctx-1") None) "print(6 * 7)"
              [created (VStr "run-7"); queued; unavailable;
               mkResponse 200 (Garbled "<html>maintenance</html>")]
              [] (VStr "run-7") 2 4 _ _ _ _ _ _)
              "<html>maintenance</html>" _).
    + reflexivity.
    + unfold sleep_max. simpl. lia.
    + exists (VDict [("id", VStr "run-7")]). repeat split.
    + intros k Hk.
      assert (k = 0%nat \/ k = 1%nat) as [-> | ->] by lia; reflexivity.
    + reflexivity.
    + lia.
    + reflexivity.
  - refine (proj2 (execute_unreadable_status play
              (demo_client (VStr "ctx-1") None) "print(6 * 7)"
              [created (VStr "run-7"); queued;
               mkResponse 200 (Json (VDict [("error", VStr "expired")]))]
              [] (VStr "run-7") 1 4 _ _ _ _ _ _)
              (VDict [("error", VStr "expired")]) (KeyError "status") _ _).
    + reflexivity.
    + unfold sleep_max. simpl. lia.
    + exists (VDict [("id", VStr "run-7")]). repeat split.
    + intros k Hk. assert (k = 0%nat) as -> by lia. reflexivity.
    + reflexivity.
    + lia.
    + reflexivity.
    + reflexivity.
Defined.

(** With a polling interval that [time.sleep] refuses, a command is
    submitted and then abandoned: the first sleep raises, so [_execute]
    raises after the submission was accepted and before any poll.  The
    exception is [ValueError] for a negative interval that converts, and
    [OverflowError] for one that does not, negative or positive. *)
Theorem execute_refused_interval
    {T} (send : request -> T -> response * T)
    (c : DBRXCluster) (command : string) (t0 : T) (tr : list event)
    (id : value) (fuel : nat) :
  is_None (_context c) = false ->
  accepts send (execute_request c command) t0 id ->
  (0 < fuel)%nat ->
  (- sleep_max <= polling_int_sec c < 0 ->
   _execute send fuel command (mkMachine c t0 tr)
   = (Raise ValueError,
      mkMachine c (snd (send (execute_request c command) t0))
        (tr ++ command_complaint command
            ++ [Http (execute_request c command);
                Log INFO (MsgSubmitted id);
                Log INFO (MsgState id (VStr "Running"))]))) /\
  (polling_int_sec c < - sleep_max \/ sleep_max < polling_int_sec c ->
   _execute send fuel command (mkMachine c t0 tr)
   = (Raise OverflowError,
      mkMachine c (snd (send (execute_request c command) t0))
        (tr ++ command_complaint command
            ++ [Http (execute_request c command);
                Log INFO (MsgSubmitted id);
                Log INFO (MsgState id (VStr "Running"))]))).
Proof.
  intros Ctx Acc L.
  assert (G : forall e,
             sleep_refusal (polling_int_sec c) = Some e ->
             _execute send fuel command (mkMachine c t0 tr)
             = (Raise e,
                mkMachine c (snd (send (execute_request c command) t0))
                  (tr ++ command_complaint command
                      ++ [Http (execute_request c command);
                          Log INFO (MsgSubmitted id);
                          Log INFO (MsgState id (VStr "Running"))]))).
  { intros e R.
    rewrite (execute_accepted T send c command Ctx t0 id Acc).
    destruct fuel as [|fuel]; [lia|].
    rewrite (poll_loop_refused_sleep T send id (status_body c command id) c
               fuel (VStr "Running") None _ _ e eq_refl R).
    rewrite <- !app_assoc. reflexivity. }
  split.
  - intros B. apply G. now apply sleep_refusal_cases.
  - intros B. apply G. now apply sleep_refusal_cases.
Qed.

Lemma execute_refused_interval_witness :
  fst (_execute play 3 "print(6 * 7)"
         (mkMachine (set_polling_int_sec (-1) (demo_client (VStr "ctx-1") None))
            [created (VStr "run-7");
             status_answer "Finished" (VStr "text") (VStr "42")] []))
  = Raise ValueError /\
  fst (_execute play 3 "print(6 * 7)"
         (mkMachine
            (set_polling_int_sec 10000000000 (demo_client (VStr "ctx-1") None))
            [created (VStr "run-7");
             status_answer "Finished" (VStr "text") (VStr "42")] []))
  = Raise OverflowError /\
  fst (_execute play 3 "print(6 * 7)"
         (mkMachine
            (set_polling_int_sec (-10000000000)
               (demo_client (VStr "ctx-1") None))
            [created (VStr "run-7");
             status_answer "Finished" (VStr "text") (VStr "42")] []))
  = Raise OverflowError.
Proof.
  split; [|split].
  - refine (f_equal fst
      (proj1 (execute_refused_interval play
                (set_polling_int_sec (-1) (demo_client (VStr "ctx-1") None))
                "print(6 * 7)"
                [created (VStr "run-7");
                 status_answer "Finished" (VStr "text") (VStr "42")]
                [] (VStr "run-7") 3 eq_refl _ _) _)).
    + exists (VDict [("id", VStr "run-7")]). repeat split.
    + lia.
    + unfold sleep_max. simpl. lia.
  - refine (f_equal fst
      (proj2 (execute_refused_interval play
                (set_polling_int_sec 10000000000
                   (demo_client (VStr "ctx-1") None))
                "print(6 * 7)"
                [created (VStr "run-7");
                 status_answer "Finished" (VStr "text") (VStr "42")]
                [] (VStr "run-7") 3 eq_refl _ _) _)).
    + exists (VDict [("id", VStr "run-7")]). repeat split.
    + lia.
    + right. unfold sleep_max. simpl. lia.
  - refine (f_equal fst
      (proj2 (execute_refused_interval play
                (set_polling_int_sec (-10000000000)
                   (demo_client (VStr "ctx-1") None))
                "print(6 * 7)"
                [created (VStr "run-7");
                 status_answer "Finished" (VStr "text") (VStr "42")]
                [] (VStr "run-7") 3 eq_refl _ _) _)).
    + exists (VDict [("id", VStr "run-7")]). repeat split.
    + lia.
    + left. unfold sleep_max. simpl. lia.
Defined.

(** ** What the probes leave alone *)

Lemma classify_R_frame {T} (package : string) (res : value) (m : machine T) :
  exists logs,
    snd (classify_R package res m)
    = mkMachine (self m) (net m) (trace m ++ logs) /\
    requests_of logs = [].
Proof.
  destruct m as [c t tr].
  unfold classify_R, text_is, bind, get_self, log, emit, lift, raise, ret.
  simpl.
  destruct (truthy res); simpl; [|eexists; split; reflexivity].
  destruct (results_field res "resultType") as [rt| |]; simpl;
    try (exists []; rewrite app_nil_r; split; reflexivity).
  destruct (str_eq rt "text"); simpl.
  - destruct (results_field res "data") as [d| |]; simpl;
      try (exists []; rewrite app_nil_r; split; reflexivity).
    destruct (str_eq d "TRUE"); simpl; [eexists; split; reflexivity|].
    destruct (str_eq d "FALSE"); simpl; [eexists; split; reflexivity|].
    destruct (str_eq rt "error"); simpl; eexists;
      rewrite <- ?app_assoc; split; reflexivity.
  - destruct (str_eq rt "error"); simpl; eexists;
      rewrite <- ?app_assoc; split; reflexivity.
Qed.

Lemma python_probe_self {T} (send : request -> T -> response * T)
    (fuel : nat) (package : string) (m : machine T) :
  self (snd (_python_package_installed send fuel package m)) = self m.
Proof.
  destruct m as [c t tr].
  unfold _python_package_installed, bind, get_self, log, emit. simpl.
  destruct (_execute send fuel (probe_code package) _) as [[res| |] m1] eqn:E;
    apply execute_self in E; simpl in *; try exact E.
  destruct (classify_frame package res m1) as (logs & Ec & _).
  destruct (classify package res m1) as [o m2]. simpl in Ec. subst m2.
  exact E.
Qed.

Lemma r_probe_self {T} (send : request -> T -> response * T)
    (fuel : nat) (package : string) (m : machine T) :
  self (snd (_r_package_installed send fuel package m)) = self m.
Proof.
  unfold _r_package_installed, bind.
  destruct (_execute send fuel (r_probe_code package) m) as [[res| |] m1] eqn:E;
    apply execute_self in E; simpl in *; try exact E.
  destruct (classify_R_frame package res m1) as (logs & Ec & _).
  destruct (classify_R package res m1) as [o m2]. simpl in Ec. subst m2.
  exact E.
Qed.

(** ** [create_context] on a client without a context *)

(** With the R-interop flag already resolved, a creation answered 200 with
    an identifier stores that identifier and returns true after exactly one
    request; the flag and the rest of the client are as before. *)
Theorem create_context_stores_identifier
    {T} (send : request -> T -> response * T)
    (fuel : nat) (name : string) (c : DBRXCluster) (t : T) (tr : list event)
    (flag : bool) (reply id : value) :
  truthy (_context c) = false ->
  rpy2 c = Some flag ->
  status_code (fst (send (create_request c name) t)) = 200 ->
  text (fst (send (create_request c name) t)) = Json reply ->
  getitem reply "id" = Ret id ->
  create_context send fuel name (mkMachine c t tr)
  = (Ret true,
     mkMachine (set_context id c) (snd (send (create_request c name) t))
       (tr ++ [Log INFO (MsgCreating name (_cluster_id c));
               Http (create_request c name);
               Log INFO (MsgCreated id)])).
Proof.
  intros F R E J G.
  unfold create_context, bind, get_self, log, emit, http, lift, ret,
    update_self. simpl. rewrite F. simpl.
  fold (create_request c name).
  destruct (send (create_request c name) t) as [r t']. simpl in *.
  rewrite E, J. simpl. rewrite G. simpl. rewrite R.
  rewrite <- !app_assoc. reflexivity.
Qed.

Lemma create_context_stores_identifier_witness :
  create_context play 1 "my_execution_context"
    (boot (demo_client VNone (Some false)) [created (VStr "ctx-1")])
  = (Ret true,
     mkMachine (demo_client (VStr "ctx-1") (Some false)) []
       [Log INFO (MsgCreating "my_execution_context" (VStr "0612-abc"));
        Http (create_request (demo_client VNone (Some false))
                "my_execution_context");
        Log INFO (MsgCreated (VStr "ctx-1"))]).
Proof.
  exact (create_context_stores_identifier play 1 "my_execution_context"
           (demo_client VNone (Some false)) [created (VStr "ctx-1")] []
           false (VDict [("id", VStr "ctx-1")]) (VStr "ctx-1")
           eq_refl eq_refl eq_refl eq_refl eq_refl).
Defined.

(** A creation that fails leaves the client without a context.  Answered
    with a status other than 200 it logs the error and returns false;
    answered 200 with a text that is not JSON, or from which "id" cannot be
    read, it raises.  One request was sent in each case. *)
Theorem create_context_failure
    {T} (send : request -> T -> response * T)
    (fuel : nat) (name : string) (c : DBRXCluster) (t : T) (tr : list event) :
  truthy (_context c) = false ->
  (status_code (fst (send (create_request c name) t)) <> 200 ->
   create_context send fuel name (mkMachine c t tr)
   = (Ret false,
      mkMachine c (snd (send (create_request c name) t))
        (tr ++ [Log INFO (MsgCreating name (_cluster_id c));
                Http (create_request c name);
                Log ERROR (MsgErrContext
                             (text (fst (send (create_request c name) t))))]))) /\
  (forall raw,
      status_code (fst (send (create_request c name) t)) = 200 ->
      text (fst (send (create_request c name) t)) = Garbled raw ->
      create_context send fuel name (mkMachine c t tr)
      = (Raise JSONDecodeError,
         mkMachine c (snd (send (create_request c name) t))
           (tr ++ [Log INFO (MsgCreating name (_cluster_id c));
                   Http (create_request c name)]))) /\
  (forall reply e,
      status_code (fst (send (create_request c name) t)) = 200 ->
      text (fst (send (create_request c name) t)) = Json reply ->
      getitem reply "id" = Raise e ->
      create_context send fuel name (mkMachine c t tr)
      = (Raise e,
         mkMachine c (snd (send (create_request c name) t))
           (tr ++ [Log INFO (MsgCreating name (_cluster_id c));
                   Http (create_request c name)]))).
Proof.
  intros F.
  unfold create_context, bind, get_self, log, emit, http, lift, ret,
    update_self. simpl. rewrite F. simpl.
  fold (create_request c name).
  destruct (send (create_request c name) t) as [r t']. simpl.
  split; [|split].
  - intros E. destruct (Z.eqb_spec (status_code r) 200); [contradiction|].
    cbn [self net trace]. rewrite <- !app_assoc. reflexivity.
  - intros raw -> ->. simpl. rewrite <- !app_assoc. reflexivity.
  - intros reply e -> -> G. simpl. rewrite G.
    rewrite <- !app_assoc. reflexivity.
Qed.

Lemma create_context_failure_witness :
  create_context play 1 "my_execution_context"
    (boot (demo_client VNone None) [mkResponse 403 (Garbled "Forbidden")])
  = (Ret false,
     mkMachine (demo_client VNone None) []
       [Log INFO (MsgCreating "my_execution_context" (VStr "0612-abc"));
        Http (create_request (demo_client VNone None) "my_execution_context");
        Log ERROR (MsgErrContext (Garbled "Forbidden"))]) /\
  fst (create_context play 1 "my_execution_context"
         (boot (demo_client VNone None)
            [mkResponse 200 (Json (VDict [("contextId", VStr "ctx-1")]))]))
  = Raise (KeyError "id").
Proof.
  split.
  - refine (proj1 (create_context_failure play 1 "my_execution_context"
                     (demo_client VNone None)
                     [mkResponse 403 (Garbled "Forbidden")] [] eq_refl) _).
    discriminate.
  - exact (f_equal fst
      (proj2 (proj2 (create_context_failure play 1 "my_execution_context"
                       (demo_client VNone None)
                       [mkResponse 200
                          (Json (VDict [("contextId", VStr "ctx-1")]))]
                       [] eq_refl))
         (VDict [("contextId", VStr "ctx-1")]) (KeyError "id")
         eq_refl eq_refl eq_refl)).
Defined.

(** With the flag left to be checked, a creation answered 200 with an
    identifier stores the identifier and then runs the Python presence probe
    for "rpy2" in the new context.  If the probe returns, its answer becomes
    the flag and the creation returns true.  If the probe raises, the
    creation raises the same exception, and the client keeps the new
    identifier with its flag still unresolved. *)
Theorem create_context_resolves_flag
    {T} (send : request -> T -> response * T)
    (fuel : nat) (name : string) (c : DBRXCluster) (t : T) (tr : list event)
    (reply id : value) :
  truthy (_context c) = false ->
  rpy2 c = None ->
  status_code (fst (send (create_request c name) t)) = 200 ->
  text (fst (send (create_request c name) t)) = Json reply ->
  getitem reply "id" = Ret id ->
  (forall b m2,
      _python_package_installed send fuel "rpy2"
        (mkMachine (set_context id c) (snd (send (create_request c name) t))
           (tr ++ [Log INFO (MsgCreating name (_cluster_id c));
                   Http (create_request c name);
                   Log INFO (MsgCreated id);
                   Log INFO MsgRpy2Check]))
      = (Ret b, m2) ->
      create_context send fuel name (mkMachine c t tr)
      = (Ret true,
         mkMachine (set_rpy2 (Some b) (set_context id c)) (net m2) (trace m2))) /\
  (forall e m2,
      _python_package_installed send fuel "rpy2"
        (mkMachine (set_context id c) (snd (send (create_request c name) t))
           (tr ++ [Log INFO (MsgCreating name (_cluster_id c));
                   Http (create_request c name);
                   Log INFO (MsgCreated id);
                   Log INFO MsgRpy2Check]))
      = (Raise e, m2) ->
      create_context send fuel name (mkMachine c t tr) = (Raise e, m2) /\
      _context (self m2) = id /\
      rpy2 (self m2) = None).
Proof.
  intros F R E J G.
  unfold create_context, bind, get_self, log, emit, http, lift, ret,
    update_self. simpl. rewrite F. simpl.
  fold (create_request c name).
  destruct (send (create_request c name) t) as [r t']. simpl in *.
  rewrite E, J. simpl. rewrite G. simpl. rewrite R.
  cbn [self net trace]. rewrite <- !app_assoc. simpl.
  split.
  - intros b m2 P.
    pose proof (f_equal (fun x => self (snd x)) P) as S. cbv beta in S.
    rewrite python_probe_self in S. cbn [self snd] in S.
    rewrite P. simpl. rewrite <- S. reflexivity.
  - intros e m2 P.
    pose proof (f_equal (fun x => self (snd x)) P) as S. cbv beta in S.
    rewrite python_probe_self in S. cbn [self snd] in S.
    rewrite P. rewrite <- S. simpl. auto.
Qed.

Lemma create_context_resolves_flag_witness :
  rpy2 (self (snd (create_context play 1 "my_execution_context"
                     (boot (demo_client VNone None)
                        [created (VStr "ctx-1"); created (VStr "run-7");
                         status_answer "Finished" (VStr "text")
                           (VStr "Success")]))))
  = Some true /\
  fst (create_context play 1 "my_execution_context"
         (boot (demo_client VNone None)
            [created (VStr "ctx-1"); created (VStr "run-7");
             status_answer "Finished" (VStr "error")
               (VStr "IndentationError")]))
  = Raise RuntimeError.
Proof.
  split.
  - assert (P : { m2 |
      _python_package_installed play 1 "rpy2"
        (mkMachine (set_context (VStr "ctx-1") (demo_client VNone None))
           (snd (play (create_request (demo_client VNone None)
                         "my_execution_context")
                   [created (VStr "ctx-1"); created (VStr "run-7");
                    status_answer "Finished" (VStr "text") (VStr "Success")]))
           ([] ++ [Log INFO (MsgCreating "my_execution_context"
                               (_cluster_id (demo_client VNone None)));
                   Http (create_request (demo_client VNone None)
                           "my_execution_context");
                   Log INFO (MsgCreated (VStr "ctx-1"));
                   Log INFO MsgRpy2Check]))
      = (Ret true, m2) }).
    { eexists. vm_compute. reflexivity. }
    destruct P as [m2 P].
    exact (f_equal (fun x => rpy2 (self (snd x)))
      (proj1 (create_context_resolves_flag play 1 "my_execution_context"
                (demo_client VNone None)
                [created (VStr "ctx-1"); created (VStr "run-7");
                 status_answer "Finished" (VStr "text") (VStr "Success")] []
                (VDict [("id", VStr "ctx-1")]) (VStr "ctx-1")
                eq_refl eq_refl eq_refl eq_refl eq_refl)
         true m2 P)).
  - assert (P : { m2 |
      _python_package_installed play 1 "rpy2"
        (mkMachine (set_context (VStr "ctx-1") (demo_client VNone None))
           (snd (play (create_request (demo_client VNone None)
                         "my_execution_context")
                   [created (VStr "ctx-1"); created (VStr "run-7");
                    status_answer "Finished" (VStr "error")
                      (VStr "IndentationError")]))
           ([] ++ [Log INFO (MsgCreating "my_execution_context"
                               (_cluster_id (demo_client VNone None)));
                   Http (create_request (demo_client VNone None)
                           "my_execution_context");
                   Log INFO (MsgCreated (VStr "ctx-1"));
                   Log INFO MsgRpy2Check]))
      = (Raise RuntimeError, m2) }).
    { eexists. vm_compute. reflexivity. }
    destruct P as [m2 P].
    exact (f_equal fst
      (proj1 (proj2 (create_context_resolves_flag play 1
                "my_execution_context" (demo_client VNone None)
                [created (VStr "ctx-1"); created (VStr "run-7");
                 status_answer "Finished" (VStr "error")
                   (VStr "IndentationError")] []
                (VDict [("id", VStr "ctx-1")]) (VStr "ctx-1")
                eq_refl eq_refl eq_refl eq_refl eq_refl)
         RuntimeError m2 P))).
Defined.

(** Unless it is refused, [create_context] first sends its creation
    request. *)
Lemma create_context_sends
    {T} (send : request -> T -> response * T)
    (fuel : nat) (name : string) (c : DBRXCluster) (t : T) (tr : list event) :
  truthy (_context c) = false ->
  exists rest,
    requests_of (trace (snd (create_context send fuel name (mkMachine c t tr))))
    = requests_of tr ++ [create_request c name] ++ rest.
Proof.
  intros F.
  unfold create_context, bind, get_self, log, emit, http, lift, ret,
    update_self. simpl. rewrite F. simpl.
  fold (create_request c name).
  destruct (send (create_request c name) t) as [r t']. simpl.
  destruct (status_code r =? 200); simpl;
    [|exists []; rewrite !requests_of_app; simpl;
      now rewrite <- !app_assoc].
  destruct (text r) as [reply|raw]; simpl;
    [|exists []; rewrite !requests_of_app; simpl;
      now rewrite <- !app_assoc].
  destruct (getitem reply "id") as [id| |]; simpl;
    try (exists []; rewrite !requests_of_app; simpl;
         now rewrite <- !app_assoc).
  destruct (rpy2 c); simpl;
    [exists []; rewrite !requests_of_app; simpl; now rewrite <- !app_assoc|].
  match goal with
  | |- context [_python_package_installed send fuel "rpy2" ?m] =>
      destruct (python_probe_frame send fuel "rpy2" m) as (tr' & Tr & _);
      destruct (_python_package_installed send fuel "rpy2" m) as [[b| |] m2]
  end; simpl in *; rewrite Tr, !requests_of_app; simpl;
    rewrite <- !app_assoc; simpl; eexists; reflexivity.
Qed.

(** A creation answered 200 with a null identifier.  With the flag resolved
    it returns true although the client still has no context: the next
    [_execute] raises [ContextNotSetException] and the next [create_context]
    is not refused but sends a new request.  With the flag left to be
    checked, the probe that follows finds no context and the creation itself
    raises [ContextNotSetException]. *)
Theorem create_context_null_identifier
    {T} (send : request -> T -> response * T)
    (fuel : nat) (name command : string) (c : DBRXCluster) (t : T)
    (tr : list event) (reply : value) :
  truthy (_context c) = false ->
  status_code (fst (send (create_request c name) t)) = 200 ->
  text (fst (send (create_request c name) t)) = Json reply ->
  getitem reply "id" = Ret VNone ->
  (forall flag, rpy2 c = Some flag ->
     fst (create_context send fuel name (mkMachine c t tr)) = Ret true /\
     _context (self (snd (create_context send fuel name (mkMachine c t tr))))
     = VNone /\
     fst (_execute send fuel command
            (snd (create_context send fuel name (mkMachine c t tr))))
     = Raise ContextNotSetException /\
     exists rest,
       requests_of
         (trace (snd (create_context send fuel name
                        (snd (create_context send fuel name
                                (mkMachine c t tr))))))
       = requests_of tr
         ++ [create_request c name; create_request c name] ++ rest) /\
  (rpy2 c = None ->
   fst (create_context send fuel name (mkMachine c t tr))
   = Raise ContextNotSetException /\
   requests_of (trace (snd (create_context send fuel name (mkMachine c t tr))))
   = requests_of tr ++ [create_request c name]).
Proof.
  intros F E J G. split.
  - intros flag R.
    assert (First :
      create_context send fuel name (mkMachine c t tr)
      = (Ret true,
         mkMachine (set_context VNone c)
           (snd (send (create_request c name) t))
           (tr ++ [Log INFO (MsgCreating name (_cluster_id c));
                   Http (create_request c name);
                   Log INFO (MsgCreated VNone)]))).
    { unfold create_context, bind, get_self, log, emit, http, lift, ret,
        update_self. simpl. rewrite F. simpl.
      fold (create_request c name).
      destruct (send (create_request c name) t) as [r t']. simpl in *.
      rewrite E, J. simpl. rewrite G. simpl. rewrite R.
      rewrite <- !app_assoc. reflexivity. }
    rewrite First. cbn [fst snd self].
    split; [reflexivity|]. split; [reflexivity|]. split.
    + unfold _execute, bind, get_self. reflexivity.
    + destruct (create_context_sends send fuel name (set_context VNone c)
                  (snd (send (create_request c name) t))
                  (tr ++ [Log INFO (MsgCreating name (_cluster_id c));
                          Http (create_request c name);
                          Log INFO (MsgCreated VNone)]) eq_refl)
        as (rest & Rq).
      exists rest. rewrite Rq, requests_of_app. simpl.
      rewrite <- app_assoc. reflexivity.
  - intros R.
    unfold create_context, bind, get_self, log, emit, http, lift, ret,
      update_self. simpl. rewrite F. simpl.
    fold (create_request c name).
    destruct (send (create_request c name) t) as [r t']. simpl in *.
    rewrite E, J. simpl. rewrite G. simpl. rewrite R.
    unfold _python_package_installed, _execute, bind, get_self, log, emit,
      raise, lift. simpl.
    split; [reflexivity|].
    rewrite !requests_of_app. simpl. rewrite !app_nil_r. reflexivity.
Qed.

Lemma create_context_null_identifier_witness :
  fst (create_context play 1 "my_execution_context"
         (boot (demo_client VNone (Some true)) [created VNone]))
  = Ret true /\
  fst (_execute play 1 "print(6 * 7)"
         (snd (create_context play 1 "my_execution_context"
                 (boot (demo_client VNone (Some true)) [created VNone]))))
  = Raise ContextNotSetException /\
  fst (create_context play 1 "my_execution_context"
         (boot (demo_client VNone None) [created VNone]))
  = Raise ContextNotSetException.
Proof.
  split; [|split].
  - exact (proj1 (proj1 (create_context_null_identifier play 1
             "my_execution_context" "print(6 * 7)"
             (demo_client VNone (Some true)) [created VNone] []
             (VDict [("id", VNone)]) eq_refl eq_refl eq_refl eq_refl)
             true eq_refl)).
  - exact (proj1 (proj2 (proj2 (proj1 (create_context_null_identifier play 1
             "my_execution_context" "print(6 * 7)"
             (demo_client VNone (Some true)) [created VNone] []
             (VDict [("id", VNone)]) eq_refl eq_refl eq_refl eq_refl)
             true eq_refl)))).
  - exact (proj1 (proj2 (create_context_null_identifier play 1
             "my_execution_context" "print(6 * 7)"
             (demo_client VNone None) [created VNone] []
             (VDict [("id", VNone)]) eq_refl eq_refl eq_refl eq_refl)
             eq_refl)).
Defined.

(** ** [destroy_context] *)

(** On a client with a context, [destroy_context] sends one request naming
    the cluster and the context, and returns whether it was answered 200.
    Either way the client is left exactly as it was: the context identifier
    is not cleared. *)
Theorem destroy_context_keeps_identifier
    {T} (send : request -> T -> response * T)
    (c : DBRXCluster) (t : T) (tr : list event) :
  is_None (_context c) = false ->
  destroy_context send (mkMachine c t tr)
  = (Ret (status_code (fst (send (destroy_request c) t)) =? 200),
     mkMachine c (snd (send (destroy_request c) t))
       (tr ++ [Http (destroy_request c);
               if status_code (fst (send (destroy_request c) t)) =? 200
               then Log INFO (MsgDestroyed (_cluster_id c))
               else Log ERROR (MsgErrContext
                                 (text (fst (send (destroy_request c) t))))])).
Proof.
  intros N.
  unfold destroy_context, bind, get_self, log, emit, http, lift, ret. simpl.
  rewrite N. simpl. fold (destroy_request c).
  destruct (send (destroy_request c) t) as [r t']. simpl.
  destruct (status_code r =? 200); cbn [self net trace];
    rewrite <- !app_assoc; reflexivity.
Qed.

Lemma destroy_context_keeps_identifier_witness :
  destroy_context play
    (boot (demo_client (VStr "ctx-1") None) [mkResponse 200 (Json (VDict []))])
  = (Ret true,
     mkMachine (demo_client (VStr "ctx-1") None) []
       [Http (destroy_request (demo_client (VStr "ctx-1") None));
        Log INFO (MsgDestroyed (VStr "0612-abc"))]) /\
  destroy_context play
    (boot (demo_client (VStr "ctx-1") None) [unavailable])
  = (Ret false,
     mkMachine (demo_client (VStr "ctx-1") None) []
       [Http (destroy_request (demo_client (VStr "ctx-1") None));
        Log ERROR (MsgErrContext (Garbled "Bad Gateway"))]).
Proof.
  split.
  - exact (destroy_context_keeps_identifier play
             (demo_client (VStr "ctx-1") None)
             [mkResponse 200 (Json (VDict []))] [] eq_refl).
  - exact (destroy_context_keeps_identifier play
             (demo_client (VStr "ctx-1") None) [unavailable] [] eq_refl).
Defined.

(** Once its context is set, [_execute] first sends its submission. *)
Lemma execute_sends
    {T} (send : request -> T -> response * T)
    (fuel : nat) (command : string) (c : DBRXCluster) (t : T) (tr : list event) :
  is_None (_context c) = false ->
  exists rest,
    requests_of (trace (snd (_execute send fuel command (mkMachine c t tr))))
    = requests_of tr ++ [execute_request c command] ++ rest.
Proof.
  intros N.
  assert (Pre : exists rest0,
             trace (snd (_execute send fuel command (mkMachine c t tr)))
             = (tr ++ command_complaint command
                   ++ [Http (execute_request c command)]) ++ rest0).
  { unfold _execute, bind, get_self. simpl. rewrite N. simpl.
    rewrite complaint_run. simpl.
    unfold http, log, emit, lift, ret. simpl.
    destruct (send (execute_request c command) t) as [r t']. simpl.
    destruct (status_code r =? 200); simpl;
      [|eexists; rewrite <- !app_assoc; reflexivity].
    destruct (text r) as [reply|raw]; simpl;
      [|exists []; rewrite <- !app_assoc; reflexivity].
    destruct (getitem reply "id") as [id| |]; simpl;
      [|exists []; rewrite <- !app_assoc; reflexivity
       |exists []; rewrite <- !app_assoc; reflexivity].
    destruct (is_None id); simpl;
      [eexists; rewrite <- !app_assoc; reflexivity|].
    match goal with
    | |- context [poll_loop send fuel id ?b ?s ?ci (mkMachine c t' ?tr0)] =>
        destruct (poll_loop_shape T send id b fuel s ci c t' tr0)
          as (tr1 & k & E & _);
        destruct (poll_loop send fuel id b s ci (mkMachine c t' tr0))
          as [[[final info']| |] m1]
    end; simpl in E; subst m1; simpl.
    - destruct (str_eq final "Finished"); simpl;
        eexists; rewrite <- !app_assoc; reflexivity.
    - eexists; rewrite <- !app_assoc; reflexivity.
    - eexists; rewrite <- !app_assoc; reflexivity. }
  destruct Pre as (rest0 & Pre). rewrite Pre.
  rewrite !requests_of_app, complaint_requests. simpl.
  rewrite <- app_assoc. eexists. reflexivity.
Qed.

(** Destroying the context does not reset the client.  After a
    [destroy_context], whatever its answer, a client whose identifier is
    truthy still refuses [create_context], a second [destroy_context] sends
    the same request again instead of raising, and [_execute] still submits
    commands to the destroyed context. *)
Theorem destroy_context_does_not_reset
    {T} (send : request -> T -> response * T)
    (fuel : nat) (name command : string)
    (c : DBRXCluster) (t : T) (tr : list event) :
  truthy (_context c) = true ->
  create_context send fuel name (snd (destroy_context send (mkMachine c t tr)))
  = (Ret false,
     mkMachine c
       (net (snd (destroy_context send (mkMachine c t tr))))
       (trace (snd (destroy_context send (mkMachine c t tr)))
          ++ [Log ERROR (MsgContextExists (_context c))])) /\
  requests_of
    (trace (snd (destroy_context send
                   (snd (destroy_context send (mkMachine c t tr))))))
  = requests_of tr ++ [destroy_request c; destroy_request c] /\
  exists rest,
    requests_of
      (trace (snd (_execute send fuel command
                     (snd (destroy_context send (mkMachine c t tr))))))
    = requests_of tr ++ [destroy_request c; execute_request c command] ++ rest.
Proof.
  intros Tr.
  assert (N : is_None (_context c) = false)
    by (destruct (_context c); try reflexivity; discriminate Tr).
  assert (D : forall t0 tr0,
             exists l m,
               snd (destroy_context send (mkMachine c t0 tr0))
               = mkMachine c (snd (send (destroy_request c) t0))
                   (tr0 ++ [Http (destroy_request c); Log l m])).
  { intros t0 tr0.
    unfold destroy_context, bind, get_self, log, emit, http, lift, ret. simpl.
    rewrite N. simpl. fold (destroy_request c).
    destruct (send (destroy_request c) t0) as [r t']. simpl.
    destruct (status_code r =? 200); cbn [self net trace snd];
      rewrite <- !app_assoc;
      [exists INFO, (MsgDestroyed (_cluster_id c))
      |exists ERROR, (MsgErrContext (text r))]; reflexivity. }
  destruct (D t tr) as (l & msg & E). rewrite E.
  split; [|split].
  - unfold create_context, bind, get_self, log, emit, ret. simpl.
    rewrite Tr. reflexivity.
  - destruct (D (snd (send (destroy_request c) t))
                (tr ++ [Http (destroy_request c); Log l msg]))
      as (l2 & msg2 & E2).
    rewrite E2. simpl. rewrite !requests_of_app. simpl.
    rewrite <- !app_assoc. reflexivity.
  - destruct (execute_sends send fuel command c
                (snd (send (destroy_request c) t))
                (tr ++ [Http (destroy_request c); Log l msg]) N)
      as (rest & Rq).
    exists rest. rewrite Rq, requests_of_app. simpl.
    rewrite <- !app_assoc. reflexivity.
Qed.

Lemma destroy_context_does_not_reset_witness :
  fst (create_context play 1 "again"
         (snd (destroy_context play
                 (boot (demo_client (VStr "ctx-1") (Some true))
                    [mkResponse 200 (Json (VDict []));
                     created (VStr "ctx-2")]))))
  = Ret false.
Proof.
  exact (f_equal fst
    (proj1 (destroy_context_does_not_reset play 1 "again" "print(6 * 7)"
              (demo_client (VStr "ctx-1") (Some true))
              [mkResponse 200 (Json (VDict [])); created (VStr "ctx-2")]
              [] eq_refl))).
Defined.

(** ** What the methods change in the client *)

Lemma install_py_package_self {T} (send : request -> T -> response * T)
    (fuel : nat) (package : string) (verbose : bool) (m : machine T) :
  self (snd (install_py_package send fuel package verbose m)) = self m.
Proof.
  destruct m as [c t tr].
  unfold install_py_package, bind, get_self, log, emit. simpl.
  match goal with
  | |- context [_python_package_installed send fuel package ?m0] =>
      pose proof (python_probe_self send fuel package m0) as S1;
      destruct (_python_package_installed send fuel package m0)
        as [[present| |] m1]
  end; simpl in *; try exact S1.
  destruct present; simpl; [exact S1|].
  destruct (_execute send fuel (pip_code package) m1) as [[out| |] m2] eqn:E;
    apply execute_self in E; simpl; try congruence.
  destruct verbose; unfold ret; simpl;
    match goal with
    | |- context [_python_package_installed send fuel package ?m0] =>
        pose proof (python_probe_self send fuel package m0) as S2;
        destruct (_python_package_installed send fuel package m0)
          as [o m3]
    end; simpl in *; congruence.
Qed.

Lemma execute_R_self {T} (send : request -> T -> response * T)
    (fuel : nat) (r_code : string) (m : machine T) :
  self (snd (execute_R send fuel r_code m)) = self m.
Proof.
  destruct m as [c t tr].
  unfold execute_R, bind, get_self, log, emit, raise, lift, ret. simpl.
  destruct (is_None (_context c)); simpl; [reflexivity|].
  destruct (rpy2 c) as [[|]|]; simpl; try reflexivity.
  destruct (_execute send fuel (r_wrapper r_code) _) as [o m1] eqn:E.
  apply execute_self in E. exact E.
Qed.

Lemma destroy_context_self {T} (send : request -> T -> response * T)
    (m : machine T) :
  self (snd (destroy_context send m)) = self m.
Proof.
  destruct m as [c t tr].
  unfold destroy_context, bind, get_self, log, emit, http, raise, lift, ret.
  simpl.
  destruct (is_None (_context c)); simpl; [reflexivity|].
  match goal with |- context [send ?q t] => destruct (send q t) as [r t'] end.
  simpl. destruct (status_code r =? 200); reflexivity.
Qed.

(** [create_context] leaves the client as it is, or stores an identifier, or
    stores an identifier and resolves the flag. *)
Lemma create_context_self {T} (send : request -> T -> response * T)
    (fuel : nat) (name : string) (c : DBRXCluster) (t : T) (tr : list event) :
  self (snd (create_context send fuel name (mkMachine c t tr))) = c \/
  (exists id,
      self (snd (create_context send fuel name (mkMachine c t tr)))
      = set_context id c) \/
  (exists id b,
      self (snd (create_context send fuel name (mkMachine c t tr)))
      = set_rpy2 (Some b) (set_context id c)).
Proof.
  unfold create_context, bind, get_self, log, emit, http, lift, ret,
    update_self. simpl.
  destruct (truthy (_context c)); simpl; [now left|].
  match goal with |- context [send ?q t] => destruct (send q t) as [r t'] end.
  simpl. destruct (status_code r =? 200); simpl; [|now left].
  destruct (text r) as [reply|raw]; simpl; [|now left].
  destruct (getitem reply "id") as [id| |]; simpl; try now left.
  destruct (rpy2 c) eqn:R; simpl; [right; left; now exists id|].
  match goal with
  | |- context [_python_package_installed send fuel "rpy2" ?m0] =>
      pose proof (python_probe_self send fuel "rpy2" m0) as S;
      destruct (_python_package_installed send fuel "rpy2" m0)
        as [[b| |] m1]
  end; simpl in *.
  - right; right. exists id, b. now rewrite S.
  - right; left. now exists id.
  - right; left. now exists id.
Qed.

(** Whatever the service answers and however a call ends, the methods that
    run code, and [destroy_context], leave the client exactly as it is;
    [create_context] changes nothing but the context identifier and the
    R-interop flag. *)
Theorem only_create_context_changes_the_client
    {T} (send : request -> T -> response * T)
    (fuel : nat) (text_arg : string) (verbose : bool)
    (c : DBRXCluster) (t : T) (tr : list event) :
  self (snd (_execute send fuel text_arg (mkMachine c t tr))) = c /\
  self (snd (execute_R send fuel text_arg (mkMachine c t tr))) = c /\
  self (snd (_python_package_installed send fuel text_arg (mkMachine c t tr)))
  = c /\
  self (snd (_r_package_installed send fuel text_arg (mkMachine c t tr))) = c /\
  self (snd (install_py_package send fuel text_arg verbose (mkMachine c t tr)))
  = c /\
  self (snd (destroy_context send (mkMachine c t tr))) = c /\
  same_configuration c
    (self (snd (create_context send fuel text_arg (mkMachine c t tr)))).
Proof.
  split; [|split; [|split; [|split; [|split; [|split]]]]].
  - destruct (_execute send fuel text_arg (mkMachine c t tr)) as [o m] eqn:E.
    now apply execute_self in E.
  - apply (execute_R_self send fuel text_arg (mkMachine c t tr)).
  - apply (python_probe_self send fuel text_arg (mkMachine c t tr)).
  - apply (r_probe_self send fuel text_arg (mkMachine c t tr)).
  - apply (install_py_package_self send fuel text_arg verbose (mkMachine c t tr)).
  - apply (destroy_context_self send (mkMachine c t tr)).
  - destruct (create_context_self send fuel text_arg c t tr)
      as [E | [(id & E) | (id & b & E)]]; rewrite E; repeat split.
Qed.

(** ** The token and its header *)

Lemma public_step_keeps_token (c c' : DBRXCluster) :
  public_step c c' ->
  _api_token c' = _api_token c /\ _headers c' = _headers c.
Proof.
  intros St. destruct St as
    [v c c' E | v c c' E | v c | d c | b c
     | T send fuel name t tr c | T send t tr c
     | T send fuel package verbose t tr c | T send fuel r_code t tr c].
  - injection E as <-. split; reflexivity.
  - discriminate E.
  - split; reflexivity.
  - split; reflexivity.
  - split; reflexivity.
  - destruct (create_context_self send fuel name c t tr)
      as [E | [(id & E) | (id & b & E)]]; rewrite E; split; reflexivity.
  - rewrite (destroy_context_self send (mkMachine c t tr)). split; reflexivity.
  - rewrite (install_py_package_self send fuel package verbose
               (mkMachine c t tr)). split; reflexivity.
  - rewrite (execute_R_self send fuel r_code (mkMachine c t tr)).
    split; reflexivity.
Qed.

(** Through the public interface the bearer token of a client never changes:
    after any sequence of property and attribute assignments and of method
    calls, the stored token is the one given to the constructor and the
    headers are the ones the constructor made from it. *)
Theorem token_is_fixed_at_construction
    (u tok : string) (p : Z) (v : value) (c0 c : DBRXCluster) :
  __init__ u tok p v = Ret c0 ->
  public_use c0 c ->
  _api_token c = tok /\
  _headers c = [("Authorization", ("Bearer " ++ tok)%string);
                ("Content-Type", "application/json")].
Proof.
  intros I U. induction U as [c0 | c0 c c' U IH St].
  - destruct (init_fields u tok p v c0 I) as (_ & Tk & Hd & _).
    split; [exact Tk|exact Hd].
  - destruct (IH I) as [Tk Hd].
    destruct (public_step_keeps_token c c' St) as [Tk' Hd'].
    split; congruence.
Qed.

Lemma token_is_fixed_at_construction_witness :
  exists c0 c1,
    __init__ "https://dbc.example/api/1.2" "T1" 1 (VStr "no") = Ret c0 /\
    setattr api_token "T2" c0 = Ret c1 /\
    _api_token
      (self (snd (create_context play 1 "my_execution_context"
                    (boot (set_cluster_id (VStr "0612-abc") c1)
                       [created (VStr "ctx-1")]))))
    = "T1".
Proof.
  eexists. eexists. split; [reflexivity|]. split; [reflexivity|].
  refine (proj1 (token_is_fixed_at_construction
                   "https://dbc.example/api/1.2" "T1" 1 (VStr "no") _ _
                   eq_refl _)).
  eapply use_more;
    [eapply use_more; [eapply use_more; [apply use_none|]|]|].
  - eapply step_api_token with (v := "T2"). reflexivity.
  - apply step_cluster_id with (v := VStr "0612-abc").
  - apply (step_create_context script play 1 "my_execution_context"
             [created (VStr "ctx-1")] []).
Defined.

(** ** The R presence probe *)

(** The R presence probe classifies what [_execute] returns for its snippet.
    A result of type "text" whose data is "TRUE" gives true and one whose
    data is "FALSE" gives false; any other text is reported as unparseable
    and the probe raises; a result of type "error" (as when the bridging
    package is missing) is reported and the probe raises; and when
    [_execute] returns [None] the missing response is reported and the probe
    raises. *)
Theorem r_probe_classifies
    {T} (send : request -> T -> response * T)
    (fuel : nat) (package : string) (c : DBRXCluster) (t : T)
    (tr : list event) (res : value) (m' : machine T) :
  _execute send fuel (r_probe_code package) (mkMachine c t tr) = (Ret res, m') ->
  (results_field res "resultType" = Ret (VStr "text") ->
   results_field res "data" = Ret (VStr "TRUE") ->
   _r_package_installed send fuel package (mkMachine c t tr)
   = (Ret true,
      mkMachine c (net m')
        (trace m' ++ [Log INFO (MsgInstalled package (_context c))]))) /\
  (results_field res "resultType" = Ret (VStr "text") ->
   results_field res "data" = Ret (VStr "FALSE") ->
   _r_package_installed send fuel package (mkMachine c t tr)
   = (Ret false,
      mkMachine c (net m')
        (trace m' ++ [Log INFO (MsgNotInstalled package (_context c))]))) /\
  (forall other,
      results_field res "resultType" = Ret (VStr "text") ->
      results_field res "data" = Ret (VStr other) ->
      other <> "TRUE"%string -> other <> "FALSE"%string ->
      _r_package_installed send fuel package (mkMachine c t tr)
      = (Raise RuntimeError,
         mkMachine c (net m') (trace m' ++ [Log WARNING (MsgCantParse res)]))) /\
  (results_field res "resultType" = Ret (VStr "error") ->
   _r_package_installed send fuel package (mkMachine c t tr)
   = (Raise RuntimeError,
      mkMachine c (net m')
        (trace m' ++ [Log INFO (MsgCantCheck package (_context c));
                      Log INFO (MsgResult res)]))) /\
  (res = VNone ->
   _r_package_installed send fuel package (mkMachine c t tr)
   = (Raise RuntimeError,
      mkMachine c (net m') (trace m' ++ [Log WARNING MsgNoResponse]))).
Proof.
  intros E. pose proof (execute_self send _ _ _ _ _ E) as S. simpl in S.
  unfold _r_package_installed, bind. rewrite E.
  unfold classify_R, text_is, bind, get_self, log, emit, lift, raise, ret.
  destruct m' as [c' t' tr']. simpl in S. subst c'. simpl.
  split; [|split; [|split; [|split]]].
  - intros Ty D. rewrite (results_field_truthy _ _ _ Ty), Ty. simpl.
    rewrite D. reflexivity.
  - intros Ty D. rewrite (results_field_truthy _ _ _ Ty), Ty. simpl.
    rewrite D. reflexivity.
  - intros other Ty D N1 N2.
    rewrite (results_field_truthy _ _ _ Ty), Ty. simpl. rewrite D. simpl.
    apply String.eqb_neq in N1, N2. rewrite N1, N2. reflexivity.
  - intros Ty. rewrite (results_field_truthy _ _ _ Ty), Ty. simpl.
    rewrite <- app_assoc. reflexivity.
  - intros ->. reflexivity.
Qed.

Lemma r_probe_classifies_witness :
  fst (_r_package_installed play 1 "mlflow"
         (mkMachine (demo_client (VStr "ctx-1") (Some true))
            [created (VStr "run-7");
             status_answer "Finished" (VStr "text") (VStr "FALSE")] []))
  = Ret false /\
  fst (_r_package_installed play 1 "mlflow"
         (mkMachine (demo_client (VStr "ctx-1") (Some false))
            [created (VStr "run-7");
             status_answer "Finished" (VStr "error")
               (VStr "ModuleNotFoundError: No module named 'rpy2'")] []))
  = Raise RuntimeError.
Proof.
  split.
  - let m' := eval vm_compute in
        (snd (_execute play 1 (r_probe_code "mlflow")
                (mkMachine (demo_client (VStr "ctx-1") (Some true))
                   [created (VStr "run-7");
                    status_answer "Finished" (VStr "text") (VStr "FALSE")]
                   []))) in
    refine (f_equal fst
      (proj1 (proj2 (r_probe_classifies play 1 "mlflow"
                (demo_client (VStr "ctx-1") (Some true))
                [created (VStr "run-7");
                 status_answer "Finished" (VStr "text") (VStr "FALSE")] []
                (status_info "Finished" (VStr "text") (VStr "FALSE")) m' _))
         eq_refl eq_refl)).
    vm_compute. reflexivity.
  - let m' := eval vm_compute in
        (snd (_execute play 1 (r_probe_code "mlflow")
                (mkMachine (demo_client (VStr "ctx-1") (Some false))
                   [created (VStr "run-7");
                    status_answer "Finished" (VStr "error")
                      (VStr "ModuleNotFoundError: No module named 'rpy2'")]
                   []))) in
    refine (f_equal fst
      (proj1 (proj2 (proj2 (proj2 (r_probe_classifies play 1 "mlflow"
                (demo_client (VStr "ctx-1") (Some false))
                [created (VStr "run-7");
                 status_answer "Finished" (VStr "error")
                   (VStr "ModuleNotFoundError: No module named 'rpy2'")] []
                (status_info "Finished" (VStr "error")
                   (VStr "ModuleNotFoundError: No module named 'rpy2'")) m' _))))
         eq_refl)).
    vm_compute. reflexivity.
Defined.

(** ** [install_py_package] when the package is not reported present *)

(** The three ways [install_py_package] goes on after its first presence
    check.  A check that does not return false ends the call with the
    check's own outcome, in the state the check left.  After a check that
    returns false the install command is run with [_execute]: if that raises,
    the call raises the same; if it returns, whatever it returns, even
    [None] for a run that did not finish, the answer of the call is the
    answer of a second presence check. *)
Theorem install_py_package_paths
    {T} (send : request -> T -> response * T)
    (fuel : nat) (package : string) (verbose : bool)
    (c : DBRXCluster) (t : T) (tr : list event)
    (first : outcome bool) (m1 : machine T) :
  _python_package_installed send fuel package
    (mkMachine c t (tr ++ [Log INFO (MsgInstalling package (_context c))]))
  = (first, m1) ->
  (first <> Ret false ->
   install_py_package send fuel package verbose (mkMachine c t tr)
   = (first, m1)) /\
  (first = Ret false ->
   forall e m2,
     _execute send fuel (pip_code package) m1 = (Raise e, m2) ->
     install_py_package send fuel package verbose (mkMachine c t tr)
     = (Raise e, m2)) /\
  (first = Ret false ->
   forall out m2,
     _execute send fuel (pip_code package) m1 = (Ret out, m2) ->
     install_py_package send fuel package verbose (mkMachine c t tr)
     = _python_package_installed send fuel package
         (mkMachine (self m2) (net m2)
            (trace m2
               ++ (if verbose then [Log INFO (MsgOutput out)] else [])
               ++ [Log INFO (MsgCheckingInstall package)]))).
Proof.
  intros P.
  unfold install_py_package, bind, get_self, log, emit, ret. simpl.
  rewrite P.
  split; [|split].
  - intros N. destruct first as [[|]| |]; try reflexivity. congruence.
  - intros -> e m2 E. rewrite E. reflexivity.
  - intros -> out m2 E. rewrite E.
    destruct verbose; cbn [self net trace]; rewrite <- ?app_assoc;
      simpl; destruct m2; reflexivity.
Qed.

Lemma install_py_package_paths_witness :
  fst (install_py_package play 1 "numpy" true
         (mkMachine (demo_client (VStr "ctx-1") (Some false))
            [created (VStr "run-7");
             status_answer "Finished" (VStr "text") (VStr "Failure");
             created (VStr "run-8");
             status_answer "Failed" VNone VNone;
             created (VStr "run-9");
             status_answer "Finished" (VStr "text") (VStr "Success")]
            []))
  = Ret true.
Proof.
  pose (c := demo_client (VStr "ctx-1") (Some false)).
  pose (service :=
          [created (VStr "run-7");
           status_answer "Finished" (VStr "text") (VStr "Failure");
           created (VStr "run-8");
           status_answer "Failed" VNone VNone;
           created (VStr "run-9");
           status_answer "Finished" (VStr "text") (VStr "Success")]).
  let m1 := eval vm_compute in
      (snd (_python_package_installed play 1 "numpy"
              (mkMachine c service
                 ([] ++ [Log INFO (MsgInstalling "numpy" (_context c))])))) in
  let m2 := eval vm_compute in
      (snd (_execute play 1 (pip_code "numpy") m1)) in
  refine (eq_trans (f_equal fst
    (proj2 (proj2 (install_py_package_paths play 1 "numpy" true c service []
                     (Ret false) m1 _))
       eq_refl VNone m2 _)) _).
  - vm_compute. reflexivity.
  - vm_compute. reflexivity.
  - vm_compute. reflexivity.
Defined.

Lemma execute_effects_witness :
  status_info "Finished" (VStr "text") (VStr "42") = VNone \/
  getitem (status_info "Finished" (VStr "text") (VStr "42")) "status"
  = Ret (VStr "Finished").
Proof.
  destruct (execute_effects play 1 "print(6 * 7)"
              (demo_client (VStr "ctx-1") None)
              [created (VStr "run-7");
               status_answer "Finished" (VStr "text") (VStr "42")] [])
    as (tr' & _ & _ & _ & V).
  apply V. vm_compute. reflexivity.
Defined.

(** ** [install_R_package] *)

(** The R probe and the R install command are different commands, whatever
    the package. *)
Lemma r_probe_is_not_install (package : string) (c : DBRXCluster) :
  submits (r_install_code package) (execute_request c (r_probe_code package))
  = false.
Proof. reflexivity. Qed.

(** The R presence probe only adds to the trace, and none of its requests
    submits the R install command. *)
Lemma r_probe_frame {T} (send : request -> T -> response * T)
    (fuel : nat) (package : string) (m : machine T) :
  exists tr',
    trace (snd (_r_package_installed send fuel package m)) = trace m ++ tr' /\
    Forall (fun q => submits (r_install_code package) q = false)
      (requests_of tr').
Proof.
  unfold _r_package_installed, bind.
  destruct (execute_frame T send fuel (r_probe_code package) m)
    as (tr1 & S & Tr & Rq & _).
  assert (Rq' : Forall (fun q => submits (r_install_code package) q = false)
                  (requests_of tr1)).
  { eapply Forall_impl; [|exact Rq]. simpl. intros q [G| ->].
    - now apply GET_submits_nothing.
    - apply r_probe_is_not_install. }
  destruct (_execute send fuel (r_probe_code package) m) as [[res| |] m1];
    simpl in *.
  - destruct (classify_R_frame package res m1) as (logs & Ec & Rl).
    destruct (classify_R package res m1) as [o m2]. simpl in Ec. subst m2.
    simpl. rewrite Tr, <- !app_assoc. eexists. split; [reflexivity|].
    rewrite requests_of_app, Rl, app_nil_r. exact Rq'.
  - eexists. split; [exact Tr|exact Rq'].
  - eexists. split; [exact Tr|exact Rq'].
Qed.




